(** * gorm-cache: a cache-aside plugin for GORM

    Shallow embedding of the in-memory adapter ([memory_adapter.go]), the
    policy resolver ([config.go]), the skip-cache context helpers and the
    query/invalidate callbacks of the plugin, followed by the properties
    the specification states about them.

    Conventions.
    - A Go [string] and a Go [[]byte] are byte sequences: [string] and
      [list Byte.byte].
    - [time.Time] is an integer count of nanoseconds measured from the zero
      instant of [time.Time] (the value for which [IsZero] holds);
      [time.Duration] is an integer count of nanoseconds.  The clock reading
      [time.Now()] is an explicit argument [now] of every function that
      reads the clock.
    - A method with a pointer receiver that mutates the receiver returns the
      new receiver next to its Go results.
    - A Go [map] is a [gmap]; iteration over it is iteration over
      [map_to_list], whose order is as unspecified as Go's. *)

From Stdlib Require Import ZArith String Ascii List Bool Lia.
From stdpp Require Import base option list gmap strings fin_maps.

Local Open Scope string_scope.
Local Open Scope Z_scope.

(** ** Go runtime notions used by the code *)

Definition bytes := list Byte.byte.

(** The Go [error] values the package creates: the plugin's [*ErrCacheHit]
    and the [*errorString] that [errors.New] returns; every other failure,
    such as one raised by the database driver, is an [errorString] too. *)
Inductive error : Type :=
| ErrCacheHit (RowsAffected : Z)
| errorString (msg : string).

(** [errors.New]. *)
Definition errors_New (msg : string) : error := errorString msg.

(** A call either returns or panics. *)
Inductive Outcome (T : Type) : Type :=
| Returns (x : T)
| Panics (msg : string).
Arguments Returns {T} x.
Arguments Panics {T} msg.

(** State of a [chan struct{}] on which nobody ever sends. *)
Inductive chan : Type := ChanOpen | ChanClosed.

(** The builtin [close]: closing a closed channel panics. *)
Definition close (c : chan) : Outcome chan :=
  match c with
  | ChanOpen => Returns ChanClosed
  | ChanClosed => Panics "close of closed channel"
  end.

(** *** package [strings] *)

(** [s[:n]] and [s[n:]] for [n <= len(s)]. *)
Definition slice_to (s : string) (n : nat) : string := String.substring 0 n s.
Definition slice_from (s : string) (n : nat) : string :=
  String.substring n (String.length s - n) s.

(** [strings.HasPrefix]:
    [len(s) >= len(prefix) && s[:len(prefix)] == prefix]. *)
Definition HasPrefix (s prefix : string) : bool :=
  (String.length prefix <=? String.length s)%nat
  && String.eqb (slice_to s (String.length prefix)) prefix.

(** [strings.HasSuffix]:
    [len(s) >= len(suffix) && s[len(s)-len(suffix):] == suffix]. *)
Definition HasSuffix (s suffix : string) : bool :=
  (String.length suffix <=? String.length s)%nat
  && String.eqb (slice_from s (String.length s - String.length suffix)) suffix.

(** [strings.TrimSuffix]. *)
Definition TrimSuffix (s suffix : string) : string :=
  if HasSuffix s suffix
  then slice_to s (String.length s - String.length suffix)
  else s.

(** *** package [time] *)

Definition Time := Z.
Definition Duration := Z.

Definition Time_IsZero (t : Time) : bool := t =? 0.
(** [t.After(u)]: [t] is strictly later than [u]. *)
Definition Time_After (t u : Time) : bool := u <? t.
Definition Time_Add (t : Time) (d : Duration) : Time := t + d.

Definition Millisecond : Duration := 1000000.
Definition Second : Duration := 1000 * Millisecond.
Definition Minute : Duration := 60 * Second.

(** ** adapter.go: the storage contract *)

(** The [Adapter] interface.  Every method takes the adapter state and
    returns the new one; [ctx] is not inspected by any implementation in
    the package and is left out. *)
Class Adapter (A : Type) : Type := {
  Adapter_Get : A -> Time -> string -> (bytes * option error) * A;
  Adapter_Set : A -> Time -> string -> bytes -> Duration -> option error * A;
  Adapter_Delete : A -> string -> option error * A;
  Adapter_DeletePattern : A -> string -> option error * A;
  Adapter_Clear : A -> option error * A;
  Adapter_Close : A -> Outcome (option error * A)
}.

(** ** memory_adapter.go *)

Record cacheItem : Type := {
  value : bytes;
  expiration : Time
}.

(** [mu] only serialises the methods and has no counterpart here. *)
Record MemoryAdapter : Type := {
  store : gmap string cacheItem;
  stopCh : chan;
  cleanUp : bool
}.

(** The state [NewMemoryAdapter] builds (the sweeper it starts is
    [startCleanup] below). *)
Definition NewMemoryAdapter : MemoryAdapter :=
  {| store := ∅; stopCh := ChanOpen; cleanUp := true |}.

Definition with_store (m : MemoryAdapter) (s : gmap string cacheItem)
  : MemoryAdapter :=
  {| store := s; stopCh := stopCh m; cleanUp := cleanUp m |}.

(** The test both [Get] and [cleanup] make:
    [!item.expiration.IsZero() && now.After(item.expiration)]. *)
Definition expired (now : Time) (item : cacheItem) : bool :=
  negb (Time_IsZero (expiration item)) && Time_After now (expiration item).

Definition MemoryAdapter_Get (m : MemoryAdapter) (now : Time) (key : string)
  : (bytes * option error) * MemoryAdapter :=
  match store m !! key with
  | None => (([], Some (errors_New "key not found")), m)
  | Some item =>
      if expired now item
      then (([], Some (errors_New "key expired")), m)
      else ((value item, None), m)
  end.

Definition MemoryAdapter_Set (m : MemoryAdapter) (now : Time) (key : string)
    (v : bytes) (ttl : Duration) : option error * MemoryAdapter :=
  let item :=
    {| value := v;
       expiration := if 0 <? ttl then Time_Add now ttl else 0 |} in
  (None, with_store m (<[key := item]> (store m))).

Definition MemoryAdapter_Delete (m : MemoryAdapter) (key : string)
  : option error * MemoryAdapter :=
  (None, with_store m (delete key (store m))).

(** The keys the first loop of [DeletePattern] collects. *)
Definition keysToDelete (s : gmap string cacheItem) (pattern : string)
  : list string :=
  let prefix := TrimSuffix pattern "*" in
  filter (fun key => Is_true (HasPrefix key prefix || String.eqb pattern "*"))
         (map_to_list s).*1.

Definition MemoryAdapter_DeletePattern (m : MemoryAdapter) (pattern : string)
  : option error * MemoryAdapter :=
  (None,
   with_store m
     (foldl (fun s key => delete key s) (store m)
            (keysToDelete (store m) pattern))).

Definition MemoryAdapter_Clear (m : MemoryAdapter)
  : option error * MemoryAdapter :=
  (None, with_store m ∅).

(** [Close] writes [cleanUp] and then closes [stopCh]; when [close] panics
    the call does not return. *)
Definition MemoryAdapter_Close (m : MemoryAdapter)
  : Outcome (option error * MemoryAdapter) :=
  let m1 := {| store := store m; stopCh := stopCh m; cleanUp := false |} in
  match close (stopCh m1) with
  | Panics msg => Panics msg
  | Returns c =>
      Returns (None, {| store := store m1; stopCh := c; cleanUp := cleanUp m1 |})
  end.

(** [cleanup]: one pass over the map that deletes every expired entry. *)
Definition cleanup (m : MemoryAdapter) (now : Time) : MemoryAdapter :=
  with_store m
    (foldl (fun s (kv : string * cacheItem) =>
              if expired now kv.2 then delete kv.1 s else s)
           (store m) (map_to_list (store m))).

(** One iteration of the [select] loop of [startCleanup].  The receive from
    [stopCh] can only be chosen once the channel is closed.  [None] means
    that the goroutine has returned. *)
Inductive selectCase : Type := tickerFired | stopReceived.

Definition selectReady (m : MemoryAdapter) (c : selectCase) : bool :=
  match c with
  | tickerFired => true
  | stopReceived => match stopCh m with ChanClosed => true | ChanOpen => false end
  end.

Definition startCleanup_step (m : MemoryAdapter) (now : Time) (c : selectCase)
  : option MemoryAdapter :=
  match c with
  | tickerFired => if negb (cleanUp m) then None else Some (cleanup m now)
  | stopReceived => None
  end.

#[export] Instance MemoryAdapter_Adapter : Adapter MemoryAdapter := {
  Adapter_Get := MemoryAdapter_Get;
  Adapter_Set := MemoryAdapter_Set;
  Adapter_Delete := MemoryAdapter_Delete;
  Adapter_DeletePattern := MemoryAdapter_DeletePattern;
  Adapter_Clear := MemoryAdapter_Clear;
  Adapter_Close := MemoryAdapter_Close
}.

(** ** Go values, as far as the package inspects them *)

(** Types, with the text [reflect.Type.String] and the [%T] verb print for
    them.  [TyNamed] is a defined struct type such as [main.User]. *)
Inductive GoType : Type :=
| TyBool
| TyInt
| TyString
| TyNamed (name : string)
| TyPtr (elem : GoType)
| TySlice (elem : GoType).

Fixpoint Type_String (t : GoType) : string :=
  match t with
  | TyBool => "bool"
  | TyInt => "int"
  | TyString => "string"
  | TyNamed name => name
  | TyPtr elem => "*" ++ Type_String elem
  | TySlice elem => "[]" ++ Type_String elem
  end.

(** Values.  A pointer carries the value it points to ([None]: a nil
    pointer), so that writing through the pointer is replacing the
    pointer value. *)
#[warnings="-register-all"]
Inductive Value : Type :=
| VBool (b : bool)
| VInt (n : Z)
| VString (s : string)
| VStruct (name : string) (fields : list Value)
| VSlice (elem : GoType) (items : list Value)
| VPtr (elem : GoType) (target : option Value).

(** [interface{}]: [None] is the nil interface. *)
Definition any := option Value.

Definition TypeOf (v : Value) : GoType :=
  match v with
  | VBool _ => TyBool
  | VInt _ => TyInt
  | VString _ => TyString
  | VStruct name _ => TyNamed name
  | VSlice elem _ => TySlice elem
  | VPtr elem _ => TyPtr elem
  end.

(** [fmt.Sprintf("%T", x)]. *)
Definition Sprintf_T (x : any) : string :=
  match x with
  | None => "<nil>"
  | Some v => Type_String (TypeOf v)
  end.

(** The type assertions [x.(bool)] and [x.(string)] in their two-result
    form. *)
Definition assert_bool (x : any) : bool * bool :=
  match x with
  | Some (VBool b) => (b, true)
  | _ => (false, false)
  end.

Definition assert_string (x : any) : string * bool :=
  match x with
  | Some (VString s) => (s, true)
  | _ => ("", false)
  end.

(** *** package [reflect] *)

Inductive Kind : Type :=
| Invalid | KBool | KInt | KString | Struct | Slice | Pointer.

(** A [reflect.Value]; [None] is the zero Value. *)
Definition reflect_Value := option Value.

Definition reflect_ValueOf (i : any) : reflect_Value := i.

Definition Value_Kind (v : reflect_Value) : Kind :=
  match v with
  | None => Invalid
  | Some (VBool _) => KBool
  | Some (VInt _) => KInt
  | Some (VString _) => KString
  | Some (VStruct _ _) => Struct
  | Some (VSlice _ _) => Slice
  | Some (VPtr _ _) => Pointer
  end.

(** [v.Elem()] of a pointer; the zero Value for a nil pointer. *)
Definition Value_Elem (v : reflect_Value) : reflect_Value :=
  match v with
  | Some (VPtr _ target) => target
  | _ => None
  end.

(** [v.Len()] of a slice. *)
Definition Value_Len (v : reflect_Value) : nat :=
  match v with
  | Some (VSlice _ items) => length items
  | _ => 0%nat
  end.

(** [reflect.Indirect]: [v.Elem()] for a pointer, [v] otherwise. *)
Definition reflect_Indirect (v : reflect_Value) : reflect_Value :=
  match Value_Kind v with
  | Pointer => Value_Elem v
  | _ => v
  end.

(** *** package [context] *)

(** Keys of context values: a key of the package's own type [contextKey],
    or a key of another type (compared by its text). *)
Inductive ctxKey : Type :=
| contextKey (s : string)
| foreignKey (s : string).

Definition ctxKey_eqb (k1 k2 : ctxKey) : bool :=
  match k1, k2 with
  | contextKey s1, contextKey s2 => String.eqb s1 s2
  | foreignKey s1, foreignKey s2 => String.eqb s1 s2
  | _, _ => false
  end.

(** A non-nil [context.Context]: the chain of [WithValue] bindings, the
    innermost first; [context.Background()] is the empty chain. *)
Definition context_Context := list (ctxKey * any).

Definition context_Background : context_Context := [].

Definition context_WithValue (parent : context_Context) (key : ctxKey)
    (val : any) : context_Context :=
  (key, val) :: parent.

Fixpoint Context_Value (ctx : context_Context) (key : ctxKey) : any :=
  match ctx with
  | [] => None
  | (k, v) :: parent => if ctxKey_eqb k key then v else Context_Value parent key
  end.

(** ** The parts of [gorm.DB] the plugin touches *)

Record schema_Schema : Type := {
  ModelType : GoType;
  Table : string
}.

Record gorm_Statement : Type := {
  Context : option context_Context;
  Settings : gmap string any;
  Schema : option schema_Schema;
  SQL : string;
  Vars : list any;
  Dest : any
}.

Record gorm_DB : Type := {
  Error : option error;
  RowsAffected : Z;
  Statement : gorm_Statement
}.

Definition set_Error (db : gorm_DB) (e : option error) : gorm_DB :=
  {| Error := e; RowsAffected := RowsAffected db; Statement := Statement db |}.

Definition set_RowsAffected (db : gorm_DB) (n : Z) : gorm_DB :=
  {| Error := Error db; RowsAffected := n; Statement := Statement db |}.

Definition set_Dest (db : gorm_DB) (d : any) : gorm_DB :=
  let st := Statement db in
  {| Error := Error db; RowsAffected := RowsAffected db;
     Statement := {| Context := Context st; Settings := Settings st;
                     Schema := Schema st; SQL := SQL st; Vars := Vars st;
                     Dest := d |} |}.

(** [db.Statement.Settings.Store(key, val)]. *)
Definition Settings_Store (db : gorm_DB) (key : string) (val : any) : gorm_DB :=
  let st := Statement db in
  {| Error := Error db; RowsAffected := RowsAffected db;
     Statement := {| Context := Context st;
                     Settings := <[key := val]> (Settings st);
                     Schema := Schema st; SQL := SQL st; Vars := Vars st;
                     Dest := Dest st |} |}.

(** ** The skip-cache channel: a value carried by the context *)

Definition contextKeySkipCache : ctxKey := contextKey "gorm:cache:skip".

Definition SkipCacheContext (ctx : context_Context) : context_Context :=
  context_WithValue ctx contextKeySkipCache (Some (VBool true)).

Definition WithSkipCache (ctx : context_Context) (skip : bool)
  : context_Context :=
  context_WithValue ctx contextKeySkipCache (Some (VBool skip)).

Definition getSkipCacheFromContext (ctx : option context_Context)
  : bool * bool :=
  match ctx with
  | None => (false, false)
  | Some ctx =>
      match Context_Value ctx contextKeySkipCache with
      | Some val =>
          let '(skip, ok) := assert_bool (Some val) in
          if ok then (skip, true) else (false, false)
      | None => (false, false)
      end
  end.

(** ** serializer.go *)

(** The [Serializer] interface.  [Unmarshal] writes through the pointer it
    is given: it returns the destination as it is after the call. *)
Record Serializer : Type := {
  Marshal : any -> bytes * option error;
  Unmarshal : bytes -> any -> any * option error
}.

(** ** config.go *)

(** [Adapter] is a reference to the adapter; its state is passed next to
    the configuration. *)
Record Config : Type := {
  TTL : Duration;
  CacheModels : list any;
  InvalidateOnUpdate : bool;
  InvalidateOnCreate : bool;
  InvalidateOnDelete : bool;
  KeyPrefix : string;
  SkipCacheCondition : option (gorm_DB -> bool);
  CacheKeyGenerator : option (gorm_DB -> string);
  Serializer_ : Serializer
}.

Definition shouldCacheModel (c : Config) (db : gorm_DB) : bool :=
  if (length (CacheModels c) =? 0)%nat then true
  else
    match Schema (Statement db) with
    | None => false
    | Some sch =>
        let modelType := ModelType sch in
        existsb (fun cacheModel =>
                   String.eqb (Sprintf_T cacheModel) (Type_String modelType))
                (CacheModels c)
    end.

Definition shouldSkipCache (c : Config) (db : gorm_DB) : bool :=
  let '(skip, ok) := getSkipCacheFromContext (Context (Statement db)) in
  if ok && skip then true
  else if match SkipCacheCondition c with
          | Some cond => cond db
          | None => false
          end
  then true
  else
    match Settings (Statement db) !! "gorm:cache:skip" with
    | Some v => let '(skip, ok) := assert_bool v in
                if ok && skip then true else false
    | None => false
    end.

Definition getModelPattern (c : Config) (db : gorm_DB) : string :=
  match Schema (Statement db) with
  | None => KeyPrefix c ++ "*"
  | Some sch => KeyPrefix c ++ Table sch ++ ":*"
  end.

(** ** The plugin and its callbacks *)

Record CachePlugin : Type := { config : Config }.

(** [calculateRowsAffected]: the number of rows a restored destination
    holds. *)
Definition calculateRowsAffected (dest : any) : Z :=
  match dest with
  | None => 0
  | Some _ =>
      let reflectValue := reflect_Indirect (reflect_ValueOf dest) in
      match Value_Kind reflectValue with
      | Slice => Z.of_nat (Value_Len reflectValue)
      | Struct => 1
      | _ => 0
      end
  end.

Section Plugin.

(** The adapter behind the [Adapter] interface. *)
Context {A : Type} `{Adapter A}.

(** Library code the package calls: [callbacks.BuildQuerySQL] of GORM,
    and the text [hex.EncodeToString(md5.Sum(json.Marshal(key)))] for a
    key made of the statement's SQL and variables. *)
Variable BuildQuerySQL : gorm_DB -> gorm_DB.
Variable fingerprint : string -> list any -> string.

Definition generateCacheKey (c : Config) (db : gorm_DB) : string :=
  match CacheKeyGenerator c with
  | Some gen => KeyPrefix c ++ gen db
  | None =>
      let hash := fingerprint (SQL (Statement db)) (Vars (Statement db)) in
      let tableName :=
        match Schema (Statement db) with
        | Some sch => Table sch
        | None => "unknown"
        end in
      KeyPrefix c ++ tableName ++ ":" ++ hash
  end.

(** [queryCallback], registered before [gorm:query]. *)
Definition queryCallback (p : CachePlugin) (now : Time) (db : gorm_DB)
    (a : A) : gorm_DB * A :=
  match Error db with
  | Some _ => (db, a)
  | None =>
  if shouldSkipCache (config p) db then (db, a)
  else if negb (shouldCacheModel (config p) db) then (db, a)
  else
    let db :=
      if (String.length (SQL (Statement db)) =? 0)%nat
      then BuildQuerySQL db else db in
    if String.eqb (SQL (Statement db)) "" then (db, a)
    else
      let cacheKey := generateCacheKey (config p) db in
      let '((cachedData, err), a) := Adapter_Get a now cacheKey in
      match err with
      | Some _ =>
          (Settings_Store db "gorm:cache:key" (Some (VString cacheKey)), a)
      | None =>
          match Dest (Statement db) with
          | None => (db, a)
          | Some _ =>
              let '(dest, err) :=
                Unmarshal (Serializer_ (config p)) cachedData
                          (Dest (Statement db)) in
              let db := set_Dest db dest in
              match err with
              | None =>
                  let rowsAffected := calculateRowsAffected dest in
                  (set_Error db (Some (ErrCacheHit rowsAffected)), a)
              | Some _ => (db, a)
              end
          end
      end
  end.

(** [afterQueryCallback], registered after [gorm:query]. *)
Definition afterQueryCallback (p : CachePlugin) (now : Time) (db : gorm_DB)
    (a : A) : gorm_DB * A :=
  match Error db with
  | Some (ErrCacheHit rows) =>
      (set_Error (set_RowsAffected db rows) None, a)
  | Some _ => (db, a)
  | None =>
  if shouldSkipCache (config p) db then (db, a)
  else if negb (shouldCacheModel (config p) db) then (db, a)
  else
    match Settings (Statement db) !! "gorm:cache:key" with
    | None => (db, a)
    | Some cacheKeyVal =>
        let '(cacheKey, ok) := assert_string cacheKeyVal in
        if negb ok then (db, a)
        else if RowsAffected db =? 0 then (db, a)
        else
          let '(cachedData, err) :=
            Marshal (Serializer_ (config p)) (Dest (Statement db)) in
          match err with
          | Some _ => (db, a)
          | None =>
              let '(_, a) :=
                Adapter_Set a now cacheKey cachedData (TTL (config p)) in
              (db, a)
          end
    end
  end.

(** [invalidateCallback], registered after create, update and delete. *)
Definition invalidateCallback (p : CachePlugin) (db : gorm_DB) (a : A)
  : gorm_DB * A :=
  match Error db with
  | Some _ => (db, a)
  | None =>
  if negb (shouldCacheModel (config p) db) then (db, a)
  else
    let pattern := getModelPattern (config p) db in
    let '(_, a) := Adapter_DeletePattern a pattern in
    (db, a)
  end.

(** *** The host: GORM running the callback chains

    [Database] is the state of the source of truth.  [runQuery] is what
    the [gorm:query] callback does when it executes (build and run the
    statement, scan the rows into [Dest], set [RowsAffected] or [Error]);
    [runCreate] is the [gorm:create] callback. *)
Variable Database : Type.
Variable runQuery : Database -> gorm_DB -> gorm_DB.
Variable runCreate : Database -> gorm_DB -> Database * gorm_DB.

(** [callbacks.Query] does nothing when [db.Error] is set. *)
Definition gorm_Query (src : Database) (db : gorm_DB) : gorm_DB :=
  match Error db with
  | None => runQuery src db
  | Some _ => db
  end.

(** A read through the query chain: [gorm:cache:query], [gorm:query],
    [gorm:cache:after_query]; [now1] and [now2] are the clock readings of
    the two adapter calls. *)
Definition Find (p : CachePlugin) (src : Database) (now1 now2 : Time)
    (db : gorm_DB) (a : A) : gorm_DB * A :=
  let '(db, a) := queryCallback p now1 db a in
  let db := gorm_Query src db in
  afterQueryCallback p now2 db a.

(** An insert through the create chain: [gorm:create], then
    [gorm:cache:after_create] when [Initialize] registered it. *)
Definition Create (p : CachePlugin) (src : Database) (db : gorm_DB) (a : A)
  : Database * gorm_DB * A :=
  let '(src, db) := runCreate src db in
  if InvalidateOnCreate (config p)
  then let '(db, a) := invalidateCallback p db a in (src, db, a)
  else (src, db, a).

End Plugin.

(** ** Observing adapter calls *)

(** An adapter that forwards to another one and keeps the list of the
    calls it received (latest first).  A callback that leaves [calls]
    as it found it has not called the adapter. *)
Inductive AdapterCall : Type :=
| CallGet (key : string)
| CallSet (key : string) (v : bytes) (ttl : Duration)
| CallDelete (key : string)
| CallDeletePattern (pattern : string)
| CallClear
| CallClose.

Record Recorder (A : Type) : Type := {
  inner : A;
  calls : list AdapterCall
}.
Arguments inner {A} r.
Arguments calls {A} r.

Definition record {A R : Type} (r : Recorder A) (c : AdapterCall)
    (res : R * A) : R * Recorder A :=
  (res.1, {| inner := res.2; calls := c :: calls r |}).

#[export] Instance Recorder_Adapter {A : Type} `{Adapter A}
  : Adapter (Recorder A) := {
  Adapter_Get r now key :=
    record r (CallGet key) (Adapter_Get (inner r) now key);
  Adapter_Set r now key v ttl :=
    record r (CallSet key v ttl) (Adapter_Set (inner r) now key v ttl);
  Adapter_Delete r key :=
    record r (CallDelete key) (Adapter_Delete (inner r) key);
  Adapter_DeletePattern r pattern :=
    record r (CallDeletePattern pattern)
           (Adapter_DeletePattern (inner r) pattern);
  Adapter_Clear r := record r CallClear (Adapter_Clear (inner r));
  Adapter_Close r :=
    match Adapter_Close (inner r) with
    | Returns res => Returns (record r CallClose res)
    | Panics msg => Panics msg
    end
}.

(** ** Everything that can touch the store of a [MemoryAdapter] *)

(** The methods that take [mu], and the sweeper's [cleanup]. *)
Inductive storeOp : Type :=
| OpGet (now : Time) (key : string)
| OpSet (now : Time) (key : string) (v : bytes) (ttl : Duration)
| OpDelete (key : string)
| OpDeletePattern (pattern : string)
| OpClear
| OpCleanup (now : Time).

Definition runOp (o : storeOp) (m : MemoryAdapter) : MemoryAdapter :=
  match o with
  | OpGet now key => (MemoryAdapter_Get m now key).2
  | OpSet now key v ttl => (MemoryAdapter_Set m now key v ttl).2
  | OpDelete key => (MemoryAdapter_Delete m key).2
  | OpDeletePattern pattern => (MemoryAdapter_DeletePattern m pattern).2
  | OpClear => (MemoryAdapter_Clear m).2
  | OpCleanup now => cleanup m now
  end.

(** The operations whose text contains a [delete] or replaces the map. *)
Definition reclaims (o : storeOp) : bool :=
  match o with
  | OpGet _ _ | OpSet _ _ _ _ => false
  | OpDelete _ | OpDeletePattern _ | OpClear | OpCleanup _ => true
  end.

(** ** A small host, for running the callbacks on concrete calls *)

Module Host.

(** A table of one model, [main.TestUser], with the names of its rows. *)
Definition Database := list string.

Definition row (name : string) : Value :=
  VStruct "main.TestUser" [VString name].

Definition rows (src : Database) : Value :=
  VSlice (TyNamed "main.TestUser") (map row src).

(** [db.Find(&users)]: every row is scanned into the slice [Dest]
    points to. *)
Definition runQuery (src : Database) (db : gorm_DB) : gorm_DB :=
  set_RowsAffected
    (set_Dest db (Some (VPtr (TySlice (TyNamed "main.TestUser"))
                             (Some (rows src)))))
    (Z.of_nat (length src)).

(** [db.Create(&user)]: the row in [Dest] is appended. *)
Definition runCreate (src : Database) (db : gorm_DB) : Database * gorm_DB :=
  match Dest (Statement db) with
  | Some (VPtr _ (Some (VStruct _ [VString name]))) =>
      ((src ++ [name])%list, set_RowsAffected db 1)
  | _ => (src, set_Error db (Some (errors_New "unsupported data type")))
  end.

Definition BuildQuerySQL (db : gorm_DB) : gorm_DB :=
  let st := Statement db in
  {| Error := Error db; RowsAffected := RowsAffected db;
     Statement := {| Context := Context st; Settings := Settings st;
                     Schema := Schema st;
                     SQL := "SELECT * FROM `test_users`";
                     Vars := Vars st; Dest := Dest st |} |}.

Definition fingerprint (sql : string) (vars : list any) : string := sql.

(** A serializer for destinations that hold rows of [TestUser]: one
    name per line. *)
Definition names (v : any) : list string :=
  match reflect_Indirect v with
  | Some (VSlice _ items) =>
      omap (fun i => match i with
                     | VStruct _ [VString name] => Some name
                     | _ => None
                     end) items
  | Some (VStruct _ [VString name]) => [name]
  | _ => []
  end.

Definition lines (l : list string) : string :=
  foldr (fun s acc => s ++ String "010"%char acc) "" l.

Fixpoint unlines (cur s : string) : list string :=
  match s with
  | EmptyString => []
  | String c rest =>
      if Ascii.eqb c "010"%char then cur :: unlines "" rest
      else unlines (cur ++ String c "") rest
  end.

Definition lineSerializer : Serializer :=
  {| Marshal v := (String.list_byte_of_string (lines (names v)), None);
     Unmarshal data dest :=
       match dest with
       | Some (VPtr (TySlice elem) _) =>
           (Some (VPtr (TySlice elem)
                       (Some (VSlice elem
                                (map row (unlines ""
                                   (String.string_of_list_byte data)))))),
            None)
       | _ => (dest, Some (errors_New "unsupported destination"))
       end |}.

Definition plugin : CachePlugin :=
  {| config :=
       {| TTL := 5 * Minute;
          CacheModels := [];
          InvalidateOnUpdate := true;
          InvalidateOnCreate := true;
          InvalidateOnDelete := true;
          KeyPrefix := "gorm:cache:";
          SkipCacheCondition := None;
          CacheKeyGenerator := None;
          Serializer_ := lineSerializer |} |}.

Definition testUsers : schema_Schema :=
  {| ModelType := TyNamed "main.TestUser"; Table := "test_users" |}.

(** The statement of [db.Find(&users)] with [users] a nil slice. *)
Definition findUsers : gorm_DB :=
  {| Error := None; RowsAffected := 0;
     Statement :=
       {| Context := Some context_Background; Settings := ∅;
          Schema := Some testUsers; SQL := ""; Vars := [];
          Dest := Some (VPtr (TySlice (TyNamed "main.TestUser"))
                             (Some (VSlice (TyNamed "main.TestUser") []))) |}
  |}.

(** The statement of [db.Create(&TestUser{Name: name})]. *)
Definition createUser (name : string) : gorm_DB :=
  {| Error := None; RowsAffected := 0;
     Statement :=
       {| Context := Some context_Background; Settings := ∅;
          Schema := Some testUsers; SQL := ""; Vars := [];
          Dest := Some (VPtr (TyNamed "main.TestUser")
                             (Some (row name))) |} |}.

(** [db.Find(&users)] and [db.Create(&user)] through the callback chains,
    with the in-memory adapter. *)
Definition find :=
  Find (A := MemoryAdapter) BuildQuerySQL fingerprint Database runQuery
       plugin.

Definition create :=
  Create (A := MemoryAdapter) Database runCreate plugin.

End Host.

(** ** The three signals of [shouldSkipCache], one by one *)

(** What the skip channel says: [true] only for an explicit [true]. *)
Definition channelSkip (db : gorm_DB) : bool :=
  let '(skip, ok) := getSkipCacheFromContext (Context (Statement db)) in
  ok && skip.

(** What the custom skip-predicate says, when one is configured. *)
Definition customSkip (c : Config) (db : gorm_DB) : bool :=
  match SkipCacheCondition c with
  | Some cond => cond db
  | None => false
  end.

(** What the per-call flag [gorm:cache:skip] of the settings says. *)
Definition flagSkip (db : gorm_DB) : bool :=
  match Settings (Statement db) !! "gorm:cache:skip" with
  | Some (Some (VBool skip)) => skip
  | _ => false
  end.

(** ** Stores that only lost entries *)

(** [m2] holds, at every key, what [m] holds there or nothing. *)
Definition shrinks (m m2 : MemoryAdapter) : Prop :=
  forall k : string, store m2 !! k = store m !! k \/ store m2 !! k = None.

(** ** Scope helpers *)

(** The closures [SkipCache()] and [EnableCache()] return: they store the
    per-call flag in the statement's settings. *)
Definition SkipCache (db : gorm_DB) : gorm_DB :=
  Settings_Store db "gorm:cache:skip" (Some (VBool true)).

Definition EnableCache (db : gorm_DB) : gorm_DB :=
  Settings_Store db "gorm:cache:skip" (Some (VBool false)).

(** ** The life of a [MemoryAdapter] *)

(** The adapters a program can hold: the one [NewMemoryAdapter] returns,
    and what the store operations and a [Close] that returns make of it. *)
Inductive reachable : MemoryAdapter -> Prop :=
| reach_new : reachable NewMemoryAdapter
| reach_op (o : storeOp) (m : MemoryAdapter) :
    reachable m -> reachable (runOp o m)
| reach_close (m m' : MemoryAdapter) (e : option error) :
    reachable m -> MemoryAdapter_Close m = Returns (e, m') -> reachable m'.

(** ** Byte occurrence *)

(** Whether the byte [c] occurs in [s]. *)
Fixpoint occurs (c : ascii) (s : string) : bool :=
  match s with
  | EmptyString => false
  | String d rest => Ascii.eqb c d || occurs c rest
  end.

(** * Properties *)

(** ** Strings *)

Lemma substring_0_app (p r : string) :
  String.substring 0 (String.length p) (p ++ r) = p.
Proof.
  induction p as [|c p IH]; simpl.
  - destruct r; reflexivity.
  - now rewrite IH.
Qed.

Lemma substring_0_length (s : string) :
  String.substring 0 (String.length s) s = s.
Proof.
  induction s as [|c s IH]; simpl; [reflexivity | now rewrite IH].
Qed.

Lemma substring_skip_app (p r : string) (n : nat) :
  String.substring (String.length p) n (p ++ r) = String.substring 0 n r.
Proof.
  induction p as [|c p IH]; simpl; [reflexivity | exact IH].
Qed.

Lemma length_app (p r : string) :
  String.length (p ++ r) = (String.length p + String.length r)%nat.
Proof.
  induction p as [|c p IH]; simpl; [reflexivity | now rewrite IH].
Qed.

Lemma HasPrefix_app (p r : string) : HasPrefix (p ++ r) p = true.
Proof.
  unfold HasPrefix, slice_to.
  rewrite substring_0_app, String.eqb_refl, length_app.
  rewrite andb_true_r. apply Nat.leb_le. lia.
Qed.

(** [HasPrefix] is the literal prefix test: [s] starts with the bytes of
    [prefix]. *)
Lemma HasPrefix_spec (s prefix : string) :
  HasPrefix s prefix = true <-> exists rest, s = prefix ++ rest.
Proof.
  split.
  - unfold HasPrefix, slice_to. intros Hp.
    apply andb_true_iff in Hp as [_ Heq]. apply String.eqb_eq in Heq.
    revert s Heq. induction prefix as [|c p IH]; intros s Heq.
    + exists s. reflexivity.
    + destruct s as [|d s]; simpl in Heq; [discriminate|].
      injection Heq as Hc Heq. subst d. destruct (IH _ Heq) as [rest ->].
      exists rest. reflexivity.
  - intros [rest ->]. apply HasPrefix_app.
Qed.

Lemma HasPrefix_empty (s : string) : HasPrefix s "" = true.
Proof. apply HasPrefix_spec. exists s. reflexivity. Qed.

Lemma HasSuffix_app (p suffix : string) : HasSuffix (p ++ suffix) suffix = true.
Proof.
  unfold HasSuffix, slice_from. rewrite length_app.
  replace (String.length p + String.length suffix - String.length suffix)%nat
    with (String.length p) by lia.
  replace (String.length p + String.length suffix - String.length p)%nat
    with (String.length suffix) by lia.
  rewrite substring_skip_app, substring_0_length, String.eqb_refl.
  rewrite andb_true_r. apply Nat.leb_le. lia.
Qed.

(** [TrimSuffix] gives back the text before the trailing suffix. *)
Lemma TrimSuffix_app (p suffix : string) : TrimSuffix (p ++ suffix) suffix = p.
Proof.
  unfold TrimSuffix. rewrite HasSuffix_app. unfold slice_to.
  rewrite length_app.
  replace (String.length p + String.length suffix - String.length suffix)%nat
    with (String.length p) by lia.
  apply substring_0_app.
Qed.

(** ** The store of the in-memory adapter *)

Section Store.

Implicit Types (s : gmap string cacheItem) (m : MemoryAdapter).
Implicit Types (k key pattern : string) (now : Time).

Lemma foldl_delete_lookup (l : list string) s k :
  foldl (fun s key => delete key s) s l !! k
  = if decide (k ∈ l) then None else s !! k.
Proof.
  revert s. induction l as [|x l IH]; intros s; cbn [foldl].
  - case_decide as Hin; [inversion Hin | reflexivity].
  - rewrite IH. destruct (decide (k = x)) as [->|Hne].
    + rewrite lookup_delete_eq, (decide_True (P := x ∈ x :: l))
        by apply list_elem_of_here.
      destruct (decide (x ∈ l)); reflexivity.
    + rewrite lookup_delete_ne by congruence.
      destruct (decide (k ∈ l)).
      * rewrite decide_True by now apply list_elem_of_further.
        reflexivity.
      * rewrite decide_False; [reflexivity|].
        intros Hin. apply elem_of_cons in Hin as [?|?]; congruence.
Qed.

Lemma elem_of_keysToDelete s pattern k :
  k ∈ keysToDelete s pattern
  <-> (HasPrefix k (TrimSuffix pattern "*") || String.eqb pattern "*") = true
      /\ is_Some (s !! k).
Proof.
  unfold keysToDelete. rewrite list_elem_of_filter, Is_true_true.
  rewrite <- elem_of_dom, <- elem_of_elements.
  assert (k ∈ (map_to_list s).*1 <-> k ∈ dom s) as Hd.
  { rewrite elem_of_dom, list_elem_of_fmap. split.
    - intros [[k' v] [-> Hin]]. apply elem_of_map_to_list in Hin. eauto.
    - intros [v Hv]. exists (k, v). split; [reflexivity|].
      now apply elem_of_map_to_list. }
  rewrite Hd, elem_of_elements. reflexivity.
Qed.

(** What [DeletePattern] leaves in the store. *)
Lemma DeletePattern_lookup m pattern k :
  store (MemoryAdapter_DeletePattern m pattern).2 !! k
  = if HasPrefix k (TrimSuffix pattern "*") || String.eqb pattern "*"
    then None else store m !! k.
Proof.
  simpl. rewrite foldl_delete_lookup.
  case_decide as Hin.
  - apply elem_of_keysToDelete in Hin as [-> _]. reflexivity.
  - destruct (HasPrefix k (TrimSuffix pattern "*") || String.eqb pattern "*")
      eqn:Hm; [|reflexivity].
    destruct (store m !! k) eqn:Hk; [|reflexivity].
    exfalso. apply Hin, elem_of_keysToDelete. rewrite Hk. eauto.
Qed.

Lemma foldl_cleanup_lookup now (l : list (string * cacheItem)) s k :
  foldl (fun s (kv : string * cacheItem) =>
           if expired now kv.2 then delete kv.1 s else s) s l !! k
  = if decide (Exists (fun kv => kv.1 = k /\ expired now kv.2 = true) l)
    then None else s !! k.
Proof.
  revert s. induction l as [|[k' item] l IH]; intros s; cbn [foldl fst snd].
  - case_decide as Hex; [inversion Hex | reflexivity].
  - rewrite IH. case_decide as Hl.
    + case_decide as Hc; [reflexivity|]. exfalso. apply Hc. now right.
    + destruct (expired now item) eqn:Hexp.
      * destruct (decide (k' = k)) as [->|Hne].
        -- rewrite lookup_delete_eq. case_decide as Hc; [reflexivity|].
           exfalso. apply Hc. left. auto.
        -- rewrite lookup_delete_ne by assumption.
           case_decide as Hc; [|reflexivity].
           apply Exists_cons in Hc as [[? _]|?]; simpl in *; congruence.
      * case_decide as Hc; [|reflexivity].
        apply Exists_cons in Hc as [[_ ?]|?]; simpl in *; congruence.
Qed.

(** What [cleanup] leaves in the store: the entries that are not
    expired. *)
Lemma cleanup_lookup m now k :
  store (cleanup m now) !! k
  = match store m !! k with
    | Some item => if expired now item then None else Some item
    | None => None
    end.
Proof.
  simpl. rewrite foldl_cleanup_lookup. case_decide as Hex.
  - apply Exists_exists in Hex as [[k' item] [Hin [Hk Hexp]]].
    simpl in *. subst k'.
    apply elem_of_map_to_list in Hin. rewrite Hin, Hexp. reflexivity.
  - destruct (store m !! k) as [item|] eqn:Hk; [|reflexivity].
    destruct (expired now item) eqn:Hexp; [|reflexivity].
    exfalso. apply Hex, Exists_exists. exists (k, item). split; [|auto].
    now apply elem_of_map_to_list.
Qed.

End Store.

(** ** The in-memory adapter *)

Section MemoryAdapterProperties.

Implicit Types (m : MemoryAdapter) (k key pattern : string).
Implicit Types (now : Time) (v : bytes) (t ttl : Duration).

Lemma Get_state m now k : (MemoryAdapter_Get m now k).2 = m.
Proof.
  unfold MemoryAdapter_Get. destruct (store m !! k) as [item|]; [|reflexivity].
  destruct (expired now item); reflexivity.
Qed.

Lemma expired_iff now (item : cacheItem) :
  expired now item = true
  <-> expiration item <> 0 /\ expiration item < now.
Proof.
  unfold expired, Time_IsZero, Time_After.
  rewrite andb_true_iff, negb_true_iff, Z.eqb_neq, Z.ltb_lt. reflexivity.
Qed.

(** [Get] returns an error exactly for an absent key and for an entry
    whose expiration is set and in the past. *)
Lemma Get_error_iff m now k :
  (MemoryAdapter_Get m now k).1.2 <> None
  <-> store m !! k = None
      \/ exists item, store m !! k = Some item
                      /\ expiration item <> 0 /\ expiration item < now.
Proof.
  unfold MemoryAdapter_Get. destruct (store m !! k) as [item|] eqn:Hk.
  - destruct (expired now item) eqn:Hexp; simpl.
    + apply expired_iff in Hexp. split; [|discriminate].
      intros _. right. eauto.
    + split; [congruence|]. intros [?|[item' [[= <-] Hexp']]]; [congruence|].
      apply expired_iff in Hexp'. congruence.
  - simpl. split; [auto | discriminate].
Qed.

Lemma Set_lookup m now k v ttl k' :
  store (MemoryAdapter_Set m now k v ttl).2 !! k'
  = if decide (k = k')
    then Some {| value := v;
                 expiration := if 0 <? ttl then now + ttl else 0 |}
    else store m !! k'.
Proof. simpl. apply lookup_insert. Qed.

(** C5. On the in-memory adapter, for every key [k], value [v] and TTL
    [t > 0]: [Set(k, v, t)] at a clock reading [now0] followed by
    [Get(k)] at a reading more than [t] later returns an error and not
    [v]; and in general [Get] returns an error (with no data) exactly when
    the key is absent or its entry is logically expired.  Clock readings
    are not before the zero instant of [time.Time]. *)
Theorem Get_after_ttl_is_NotFound m k v t now0 now1 :
  0 < t -> 0 <= now0 -> now0 + t < now1 ->
  let m' := (MemoryAdapter_Set m now0 k v t).2 in
  (MemoryAdapter_Get m' now1 k).1 = ([], Some (errors_New "key expired"))
  /\ (forall m now k,
        (exists e, (MemoryAdapter_Get m now k).1 = ([], Some e))
        <-> store m !! k = None
            \/ exists item, store m !! k = Some item
                            /\ expiration item <> 0
                            /\ expiration item < now).
Proof.
  intros Ht Hnow Hlater m'. split.
  - unfold MemoryAdapter_Get. subst m'. rewrite Set_lookup.
    rewrite decide_True by reflexivity.
    assert ((0 <? t) = true) as -> by (apply Z.ltb_lt; lia).
    assert (expired now1 {| value := v; expiration := now0 + t |} = true)
      as -> by (apply expired_iff; simpl; lia).
    reflexivity.
  - clear. intros m now k. rewrite <- Get_error_iff. split.
    + intros [e ->]. discriminate.
    + unfold MemoryAdapter_Get. destruct (store m !! k) as [item|].
      * destruct (expired now item); simpl; [eauto | congruence].
      * eauto.
Qed.

Lemma Get_after_ttl_is_NotFound_witness :
  (MemoryAdapter_Get
     (MemoryAdapter_Set NewMemoryAdapter 1000 "test:key"
        (String.list_byte_of_string "test value") (100 * Millisecond)).2
     (1000 + 150 * Millisecond) "test:key").1
  = ([], Some (errors_New "key expired")).
Proof.
  apply (Get_after_ttl_is_NotFound NewMemoryAdapter "test:key"
           (String.list_byte_of_string "test value") (100 * Millisecond)
           1000 (1000 + 150 * Millisecond));
    vm_compute; congruence.
Defined.

(** C6. On the in-memory adapter, for every key [k], value [v] and TTL
    [t > 0]: [Set(k, v, t)] followed by [Get(k)] no later than [t] after
    the [Set] returns exactly [v] and no error, whatever was stored at
    [k] before; the entry at [k] is the new one and the other entries
    are untouched. *)
Theorem Set_then_Get_returns_value m k v t now0 now1 :
  0 < t -> now1 <= now0 + t ->
  let m' := (MemoryAdapter_Set m now0 k v t).2 in
  (MemoryAdapter_Get m' now1 k).1 = (v, None)
  /\ store m' !! k = Some {| value := v; expiration := now0 + t |}
  /\ (forall k', k' <> k -> store m' !! k' = store m !! k').
Proof.
  intros Ht Hwithin m'. subst m'.
  assert ((0 <? t) = true) as Hpos by (apply Z.ltb_lt; lia).
  repeat split.
  - unfold MemoryAdapter_Get. rewrite Set_lookup, Hpos.
    rewrite decide_True by reflexivity.
    destruct (expired now1 _) eqn:Hexp; [|reflexivity].
    apply expired_iff in Hexp. simpl in Hexp. lia.
  - rewrite Set_lookup, Hpos. now rewrite decide_True.
  - intros k' Hne. rewrite Set_lookup. now rewrite decide_False.
Qed.

Lemma Set_then_Get_returns_value_witness :
  (MemoryAdapter_Get
     (MemoryAdapter_Set
        (MemoryAdapter_Set NewMemoryAdapter 5 "test:key"
           (String.list_byte_of_string "old") 0).2
        1000 "test:key" (String.list_byte_of_string "test value") Minute).2
     (1000 + Minute) "test:key").1
  = (String.list_byte_of_string "test value", None).
Proof.
  apply (Set_then_Get_returns_value
           (MemoryAdapter_Set NewMemoryAdapter 5 "test:key"
              (String.list_byte_of_string "old") 0).2
           "test:key" (String.list_byte_of_string "test value") Minute
           1000 (1000 + Minute));
    vm_compute; congruence.
Defined.

Lemma DeletePattern_star_lookup m prefix k :
  store (MemoryAdapter_DeletePattern m (prefix ++ "*")).2 !! k
  = if HasPrefix k prefix then None else store m !! k.
Proof.
  rewrite DeletePattern_lookup, TrimSuffix_app.
  destruct (HasPrefix k prefix) eqn:Hp; [reflexivity|].
  destruct (String.eqb (prefix ++ "*") "*") eqn:Heq; [|reflexivity].
  apply String.eqb_eq in Heq. destruct prefix as [|c [|d q]]; try discriminate.
  now rewrite HasPrefix_empty in Hp.
Qed.

(** C7. [DeletePattern] on the in-memory adapter, called with a pattern
    [prefix*], removes exactly the keys that start with the text [prefix]
    (a literal prefix test) and leaves every other entry as it was, so
    that a [Get] of such a key answers as before; the pattern [*] removes
    every key.  With [user:1], [user:2] and [order:1] stored,
    [DeletePattern("user:*")] removes the first two and [Get("order:1")]
    still returns its value. *)
Theorem DeletePattern_removes_exactly_prefix :
  (forall m prefix k,
      store (MemoryAdapter_DeletePattern m (prefix ++ "*")).2 !! k
      = if HasPrefix k prefix then None else store m !! k)
  /\ (forall k prefix,
        HasPrefix k prefix = true <-> exists rest, k = prefix ++ rest)
  /\ (forall m k, store (MemoryAdapter_DeletePattern m "*").2 !! k = None)
  /\ (forall m prefix k now,
        HasPrefix k prefix = false ->
        (MemoryAdapter_Get (MemoryAdapter_DeletePattern m (prefix ++ "*")).2
                           now k).1
        = (MemoryAdapter_Get m now k).1)
  /\ (forall now,
        let value1 := String.list_byte_of_string "value1" in
        let value2 := String.list_byte_of_string "value2" in
        let value3 := String.list_byte_of_string "value3" in
        let m1 := (MemoryAdapter_Set NewMemoryAdapter now "user:1" value1
                                     Minute).2 in
        let m2 := (MemoryAdapter_Set m1 now "user:2" value2 Minute).2 in
        let m3 := (MemoryAdapter_Set m2 now "order:1" value3 Minute).2 in
        let m4 := (MemoryAdapter_DeletePattern m3 "user:*").2 in
        store m4 !! "user:1" = None
        /\ store m4 !! "user:2" = None
        /\ (MemoryAdapter_Get m4 now "user:1").1.2 <> None
        /\ (MemoryAdapter_Get m4 now "user:2").1.2 <> None
        /\ (MemoryAdapter_Get m4 now "order:1").1 = (value3, None)).
Proof.
  split; [exact DeletePattern_star_lookup|].
  split; [exact HasPrefix_spec|].
  split.
  { intros m k. change "*" with ("" ++ "*").
    rewrite (DeletePattern_star_lookup m "" k).
    now rewrite HasPrefix_empty. }
  split.
  { intros m prefix k now Hp. unfold MemoryAdapter_Get.
    rewrite DeletePattern_star_lookup, Hp.
    destruct (store m !! k) as [item|]; [|reflexivity].
    destruct (expired now item); reflexivity. }
  intros now value1 value2 value3 m1 m2 m3 m4.
  change "user:*" with ("user:" ++ "*") in m4.
  assert (store m4 !! "user:1" = None) as H1.
  { subst m4. now rewrite (DeletePattern_star_lookup m3 "user:" "user:1"). }
  assert (store m4 !! "user:2" = None) as H2.
  { subst m4. now rewrite (DeletePattern_star_lookup m3 "user:" "user:2"). }
  repeat split; try assumption.
  - apply Get_error_iff. now left.
  - apply Get_error_iff. now left.
  - unfold MemoryAdapter_Get. subst m4.
    rewrite (DeletePattern_star_lookup m3 "user:" "order:1").
    change (HasPrefix "order:1" "user:") with false. cbv iota.
    subst m3. rewrite Set_lookup, decide_True by reflexivity.
    change (0 <? Minute) with true. cbv iota.
    destruct (expired now _) eqn:Hexp; [|reflexivity].
    apply expired_iff in Hexp. cbn [expiration] in Hexp.
    unfold Minute, Second, Millisecond in Hexp. lia.
Qed.

Lemma Set_keeps_keys m now k v ttl k' :
  is_Some (store m !! k') ->
  is_Some (store (MemoryAdapter_Set m now k v ttl).2 !! k').
Proof.
  intros Hk'. rewrite Set_lookup. case_decide; [eauto | assumption].
Qed.

(** C10. [Get] on the in-memory adapter never modifies the adapter: the
    adapter after the call is the adapter before it.  An entry that [Get]
    reports as expired is still in the store after that [Get].  Of the
    operations on the store, only [cleanup], [Delete], [DeletePattern] and
    [Clear] can make a stored key disappear ([Get] and [Set] never do), and
    [cleanup] removes exactly the expired entries. *)
Theorem Get_does_not_modify_store :
  (forall m now k, (MemoryAdapter_Get m now k).2 = m)
  /\ (forall m now k item,
        store m !! k = Some item ->
        (MemoryAdapter_Get m now k).1 = ([], Some (errors_New "key expired")) ->
        store (MemoryAdapter_Get m now k).2 !! k = Some item)
  /\ (forall o m k,
        is_Some (store m !! k) -> store (runOp o m) !! k = None ->
        reclaims o = true)
  /\ (forall m now k,
        store (cleanup m now) !! k
        = match store m !! k with
          | Some item =>
              if negb (expiration item =? 0) && (expiration item <? now)
              then None else Some item
          | None => None
          end).
Proof.
  split; [exact Get_state|].
  split; [intros m now k item Hk _; now rewrite Get_state|].
  split; [|exact cleanup_lookup].
  intros o m k Hk Hgone. destruct o; try reflexivity; exfalso.
  - simpl in Hgone. rewrite Get_state in Hgone.
    rewrite Hgone in Hk. now destruct Hk.
  - apply (Set_keeps_keys m now key v ttl) in Hk.
    simpl in Hgone, Hk. rewrite Hgone in Hk. now destruct Hk.
Qed.

(** An entry set with a TTL of 100ms and read 150ms later, as in
    [TestMemoryAdapterExpiration]: [Get] reports it expired and leaves it
    in the store; [cleanup] removes it. *)
Lemma Get_does_not_modify_store_witness :
  let m := (MemoryAdapter_Set NewMemoryAdapter 1000 "test:key"
              (String.list_byte_of_string "test value")
              (100 * Millisecond)).2 in
  let later := 1000 + 150 * Millisecond in
  (MemoryAdapter_Get m later "test:key").1
  = ([], Some (errors_New "key expired"))
  /\ is_Some (store (MemoryAdapter_Get m later "test:key").2 !! "test:key")
  /\ store (cleanup m later) !! "test:key" = None.
Proof.
  intros m later.
  destruct Get_does_not_modify_store as (_ & Hkeep & _ & Hclean).
  split; [reflexivity|]. split.
  - erewrite Hkeep; [eauto | vm_compute; reflexivity | reflexivity].
  - rewrite Hclean. vm_compute. reflexivity.
Defined.

(** C4 does not hold: the second [Close] on the same adapter panics. *)
Lemma Close_twice_panics :
  exists m1,
    MemoryAdapter_Close NewMemoryAdapter = Returns (None, m1)
    /\ MemoryAdapter_Close m1 = Panics "close of closed channel".
Proof. eexists. split; reflexivity. Qed.

(** C4, amended. [Close] on an adapter whose stop channel is open returns
    normally with no error, leaves the store as it is, clears [cleanUp]
    and closes [stopCh], so that the sweeper returns at its next [select]
    whichever ready case it takes.  [Close] has no guard against a second
    stop: on an adapter that was closed before, it panics when it closes
    [stopCh] again. *)
Theorem Close_once_returns_then_panics m :
  stopCh m = ChanOpen ->
  exists m1,
    MemoryAdapter_Close m = Returns (None, m1)
    /\ store m1 = store m /\ cleanUp m1 = false /\ stopCh m1 = ChanClosed
    /\ (forall now c, startCleanup_step m1 now c = None)
    /\ MemoryAdapter_Close m1 = Panics "close of closed channel".
Proof.
  intros Hopen. unfold MemoryAdapter_Close. simpl. rewrite Hopen. simpl.
  eexists. split; [reflexivity|]. simpl. repeat split.
  intros now []; reflexivity.
Qed.

Lemma Close_once_returns_then_panics_witness :
  exists m1,
    MemoryAdapter_Close NewMemoryAdapter = Returns (None, m1)
    /\ store m1 = store NewMemoryAdapter
    /\ cleanUp m1 = false /\ stopCh m1 = ChanClosed
    /\ (forall now c, startCleanup_step m1 now c = None)
    /\ MemoryAdapter_Close m1 = Panics "close of closed channel".
Proof. apply (Close_once_returns_then_panics NewMemoryAdapter). reflexivity. Defined.

End MemoryAdapterProperties.

(** ** The policy resolver *)

Section ResolverProperties.

Implicit Types (c : Config) (db : gorm_DB).

Lemma getSkipCacheFromContext_WithSkipCache (ctx : context_Context) (b : bool) :
  getSkipCacheFromContext (Some (WithSkipCache ctx b)) = (b, true).
Proof. reflexivity. Qed.

Lemma shouldSkipCache_eq c db :
  shouldSkipCache c db
  = channelSkip db || customSkip c db || flagSkip db.
Proof.
  unfold shouldSkipCache, channelSkip, customSkip, flagSkip.
  destruct (getSkipCacheFromContext _) as [skip ok].
  destruct (ok && skip); [reflexivity|]. simpl.
  destruct (SkipCacheCondition c) as [cond|];
    [destruct (cond db); [reflexivity|]|]; simpl;
    (destruct (Settings (Statement db) !! "gorm:cache:skip")
       as [[[[]| | | | |]|]|]; reflexivity).
Qed.

(** C3 does not hold: with the value [false] on the skip channel and a
    custom predicate that returns [true], the cache is skipped. *)
Lemma explicit_false_does_not_defeat_predicate :
  let c := {| TTL := 5 * Minute; CacheModels := [];
              InvalidateOnUpdate := true; InvalidateOnCreate := true;
              InvalidateOnDelete := true; KeyPrefix := "gorm:cache:";
              SkipCacheCondition := Some (fun _ => true);
              CacheKeyGenerator := None;
              Serializer_ := Host.lineSerializer |} in
  let db := {| Error := None; RowsAffected := 0;
               Statement :=
                 {| Context := Some (WithSkipCache context_Background false);
                    Settings := ∅; Schema := Some Host.testUsers;
                    SQL := ""; Vars := [];
                    Dest := Dest (Statement Host.findUsers) |} |} in
  getSkipCacheFromContext (Context (Statement db)) = (false, true)
  /\ shouldSkipCache c db = true.
Proof. split; reflexivity. Qed.

(** C3, amended. [shouldSkipCache] looks at its three signals in the
    order skip channel, custom predicate, per-call flag, and answers
    [true] at the first one that says [true]; it answers [false] when none
    does.  So a [true] on the skip channel ends the evaluation, whatever
    the predicate says, while a [false] on the channel does not: it counts
    as no signal, and the predicate and the flag still decide. *)
Theorem shouldSkipCache_first_true_wins c db ctx (b : bool) :
  Context (Statement db) = Some (WithSkipCache ctx b) ->
  shouldSkipCache c db = b || customSkip c db || flagSkip db
  /\ (b = true -> shouldSkipCache c db = true)
  /\ (b = false -> shouldSkipCache c db = customSkip c db || flagSkip db)
  /\ (forall c db,
        shouldSkipCache c db = true
        <-> getSkipCacheFromContext (Context (Statement db)) = (true, true)
            \/ (exists cond, SkipCacheCondition c = Some cond
                             /\ cond db = true)
            \/ Settings (Statement db) !! "gorm:cache:skip"
               = Some (Some (VBool true))).
Proof.
  intros Hctx.
  assert (shouldSkipCache c db = b || customSkip c db || flagSkip db) as Heq.
  { rewrite shouldSkipCache_eq. unfold channelSkip.
    rewrite Hctx, getSkipCacheFromContext_WithSkipCache. reflexivity. }
  split; [exact Heq|]. split; [intros ->; exact Heq|].
  split; [intros ->; exact Heq|].
  clear. intros c db. rewrite shouldSkipCache_eq.
  rewrite !orb_true_iff. unfold channelSkip, customSkip, flagSkip.
  assert (forall sk : bool * bool,
             (let '(skip, ok) := sk in ok && skip) = true
             <-> sk = (true, true)) as Hchan.
  { intros [[] []]; simpl; split; congruence. }
  rewrite Hchan. split.
  - intros [[?|Hc]|Hf]; [now left | right; left | right; right].
    + destruct (SkipCacheCondition c) as [cond|]; [eauto | discriminate].
    + destruct (Settings (Statement db) !! "gorm:cache:skip")
        as [[[[]| | | | |]|]|]; try discriminate. reflexivity.
  - intros [?|[[cond [-> ->]]| ->]]; auto.
Qed.

Lemma shouldSkipCache_first_true_wins_witness :
  let c := {| TTL := 5 * Minute; CacheModels := [];
              InvalidateOnUpdate := true; InvalidateOnCreate := true;
              InvalidateOnDelete := true; KeyPrefix := "gorm:cache:";
              SkipCacheCondition := Some (fun _ => true);
              CacheKeyGenerator := None;
              Serializer_ := Host.lineSerializer |} in
  let db := {| Error := None; RowsAffected := 0;
               Statement :=
                 {| Context := Some (WithSkipCache context_Background false);
                    Settings := ∅; Schema := None;
                    SQL := ""; Vars := []; Dest := None |} |} in
  shouldSkipCache c db = false || customSkip c db || flagSkip db.
Proof.
  intros c db.
  exact (proj1 (shouldSkipCache_first_true_wins c db context_Background
                  false eq_refl)).
Defined.

(** C8 does not hold: with an empty allow-list a call without a schema is
    cacheable. *)
Lemma nil_schema_cached_when_no_models :
  let db := {| Error := None; RowsAffected := 0;
               Statement :=
                 {| Context := Some context_Background; Settings := ∅;
                    Schema := None; SQL := "SELECT 1"; Vars := [];
                    Dest := None |} |} in
  CacheModels (config Host.plugin) = []
  /\ Schema (Statement db) = None
  /\ shouldCacheModel (config Host.plugin) db = true.
Proof. repeat split. Qed.

(** C8, amended. [shouldCacheModel] returns [true] exactly when the
    allow-list is empty (whatever the call, a call without a schema
    included), or the call has a schema and the text of its model type is
    equal to the text [%T] prints for one of the configured entries.  In
    particular, with a non-empty allow-list a call without a schema gets
    [false]. *)
Theorem shouldCacheModel_iff c db :
  (shouldCacheModel c db = true
   <-> CacheModels c = []
       \/ exists sch cacheModel,
            Schema (Statement db) = Some sch
            /\ In cacheModel (CacheModels c)
            /\ Sprintf_T cacheModel = Type_String (ModelType sch))
  /\ (CacheModels c <> [] /\ Schema (Statement db) = None
      -> shouldCacheModel c db = false).
Proof.
  unfold shouldCacheModel. destruct (CacheModels c) as [|x l] eqn:Hl.
  - simpl. split; [|intros [? _]; congruence]. split; auto.
  - cbn [length Nat.eqb]. destruct (Schema (Statement db)) as [sch|].
    + split; [|intros [_ ?]; discriminate].
      rewrite existsb_exists. split.
      * intros [cm [Hin Heq]]. right. exists sch, cm.
        apply String.eqb_eq in Heq. auto.
      * intros [?|[sch' [cm [[= <-] [Hin Heq]]]]]; [discriminate|].
        exists cm. split; [assumption|]. now apply String.eqb_eq.
    + split; [|reflexivity]. split; [discriminate|].
      intros [?|[sch [cm [? _]]]]; discriminate.
Qed.

(** The allow-list of [TestModelSelection], [TestUser{}]: a read of
    [TestUser] is cacheable, a call without a schema is not. *)
Lemma shouldCacheModel_iff_witness :
  let c := {| TTL := 5 * Minute;
              CacheModels := [Some (Host.row "")];
              InvalidateOnUpdate := true; InvalidateOnCreate := true;
              InvalidateOnDelete := true; KeyPrefix := "gorm:cache:";
              SkipCacheCondition := None; CacheKeyGenerator := None;
              Serializer_ := Host.lineSerializer |} in
  let raw := {| Error := None; RowsAffected := 0;
                Statement :=
                  {| Context := Some context_Background; Settings := ∅;
                     Schema := None; SQL := "SELECT 1"; Vars := [];
                     Dest := None |} |} in
  shouldCacheModel c Host.findUsers = true
  /\ shouldCacheModel c raw = false.
Proof.
  intros c raw. split.
  - apply (proj1 (shouldCacheModel_iff c Host.findUsers)). right.
    exists Host.testUsers, (Some (Host.row "")).
    repeat split. now left.
  - apply (proj2 (shouldCacheModel_iff c raw)). split; [discriminate|reflexivity].
Defined.

End ResolverProperties.

(** ** The callbacks *)

Section EngineProperties.

Context {A : Type} `{Adapter A}.
Variable BuildQuerySQL : gorm_DB -> gorm_DB.
Variable fingerprint : string -> list any -> string.
Variable Database : Type.
Variable runQuery : Database -> gorm_DB -> gorm_DB.
Variable runCreate : Database -> gorm_DB -> Database * gorm_DB.

Implicit Types (p : CachePlugin) (db : gorm_DB) (a : A) (now : Time).
Implicit Types (src : Database).

Lemma queryCallback_failed {B : Type} `{Adapter B} p now db (b : B) e :
  Error db = Some e ->
  queryCallback BuildQuerySQL fingerprint p now db b = (db, b).
Proof. intros He. unfold queryCallback. now rewrite He. Qed.

Lemma afterQueryCallback_failed p now db a msg :
  Error db = Some (errorString msg) ->
  afterQueryCallback p now db a = (db, a).
Proof. intros He. unfold afterQueryCallback. now rewrite He. Qed.

(** C2. When the call already carries a failure as [queryCallback]
    starts, the callback returns at once: the call (its settings, where a
    key would be remembered, and its failure) and the adapter are as
    before, and an adapter that records its calls has recorded none.  The
    source is then not run, and a failure that is not the plugin's own
    marker goes through the whole query chain unchanged. *)
Theorem queryCallback_keeps_prior_failure p now db a e :
  Error db = Some e ->
  queryCallback BuildQuerySQL fingerprint p now db a = (db, a)
  /\ (forall r : Recorder A,
        calls (queryCallback BuildQuerySQL fingerprint p now db r).2
        = calls r)
  /\ (forall src now2 msg,
        e = errorString msg ->
        Find BuildQuerySQL fingerprint Database runQuery p src now now2 db a
        = (db, a)).
Proof.
  intros He. split; [now apply queryCallback_failed with e|].
  split.
  - intros r. now rewrite (queryCallback_failed p now db r e).
  - intros src now2 msg ->. unfold Find.
    rewrite (queryCallback_failed p now db a _ He).
    unfold gorm_Query. rewrite He.
    now apply afterQueryCallback_failed with msg.
Qed.



Lemma afterQueryCallback_empty {B : Type} `{Adapter B} p now db (b : B) :
  RowsAffected db = 0 -> (afterQueryCallback p now db b).2 = b.
Proof.
  intros Hrows. unfold afterQueryCallback.
  destruct (Error db) as [[rows|msg]|]; try reflexivity.
  destruct (shouldSkipCache (config p) db); [reflexivity|].
  destruct (negb (shouldCacheModel (config p) db)); [reflexivity|].
  destruct (Settings (Statement db) !! "gorm:cache:key") as [v|];
    [|reflexivity].
  destruct (assert_string v) as [cacheKey ok].
  destruct (negb ok); [reflexivity|]. now rewrite Hrows.
Qed.

Lemma afterQueryCallback_Statement {B : Type} `{Adapter B} p now db (b : B) :
  Statement (afterQueryCallback p now db b).1 = Statement db.
Proof.
  unfold afterQueryCallback.
  destruct (Error db) as [[rows|msg]|]; try reflexivity.
  destruct (shouldSkipCache (config p) db); [reflexivity|].
  destruct (negb (shouldCacheModel (config p) db)); [reflexivity|].
  destruct (Settings (Statement db) !! "gorm:cache:key") as [v|];
    [|reflexivity].
  destruct (assert_string v) as [cacheKey ok].
  destruct (negb ok); [reflexivity|].
  destruct (RowsAffected db =? 0); [reflexivity|].
  destruct (Marshal _ _) as [cachedData [err|]]; [reflexivity|].
  destruct (Adapter_Set _ _ _ _ _). reflexivity.
Qed.

Lemma shrinks_refl (m : MemoryAdapter) : shrinks m m.
Proof. intros k. now left. Qed.

Lemma invalidateCallback_shrinks p db (m : MemoryAdapter) :
  shrinks m (invalidateCallback p db m).2.
Proof.
  unfold invalidateCallback.
  destruct (Error db); [apply shrinks_refl|].
  destruct (negb (shouldCacheModel (config p) db)); [apply shrinks_refl|].
  cbn [Adapter_DeletePattern MemoryAdapter_Adapter].
  intros k.
  pose proof (DeletePattern_lookup m (getModelPattern (config p) db) k) as Hk.
  destruct (MemoryAdapter_DeletePattern m _) as [e m2]. simpl in *.
  rewrite Hk. destruct (_ || _); auto.
Qed.

Lemma Create_shrinks p src db (m : MemoryAdapter) :
  shrinks m (Create Database runCreate p src db m).2.
Proof.
  unfold Create. destruct (runCreate src db) as [src' db'].
  destruct (InvalidateOnCreate (config p)); [|apply shrinks_refl].
  pose proof (invalidateCallback_shrinks p db' m) as Hs.
  destruct (invalidateCallback p db' m). exact Hs.
Qed.

(** A key that [Get] does not find stays not found when the store only
    loses entries and the clock does not go back; a key that [Get] finds
    is found again with the same payload, or not found. *)
Lemma Get_stable (m m2 : MemoryAdapter) (t1 t3 : Time) (k : string) :
  shrinks m m2 -> t1 <= t3 ->
  (MemoryAdapter_Get m2 t3 k).1 = (MemoryAdapter_Get m t1 k).1
  \/ (exists msg,
        (MemoryAdapter_Get m2 t3 k).1 = ([], Some (errorString msg))).
Proof.
  intros Hs Ht. unfold MemoryAdapter_Get.
  destruct (Hs k) as [-> | ->]; [|right; eauto].
  destruct (store m !! k) as [item|]; [|left; reflexivity].
  destruct (expired t3 item) eqn:H3; [right; eauto|].
  destruct (expired t1 item) eqn:H1; [|left; reflexivity].
  apply expired_iff in H1.
  assert (expired t3 item = true) by (apply expired_iff; lia). congruence.
Qed.

(** When the source was run for a call, it is run again for the same
    call later, provided the store only lost entries in between. *)
Lemma queryCallback_runs_again p db (m m2 : MemoryAdapter) (t1 t3 : Time) :
  shrinks m m2 -> t1 <= t3 ->
  Error (queryCallback BuildQuerySQL fingerprint p t1 db m).1 = None ->
  Error (queryCallback BuildQuerySQL fingerprint p t3 db m2).1 = None.
Proof.
  intros Hs Ht. unfold queryCallback.
  destruct (Error db) eqn:Herr; [simpl; congruence|].
  destruct (shouldSkipCache (config p) db); [simpl; congruence|].
  destruct (negb (shouldCacheModel (config p) db)); [simpl; congruence|].
  set (db1 := if (String.length (SQL (Statement db)) =? 0)%nat
              then BuildQuerySQL db else db).
  destruct (String.eqb (SQL (Statement db1)) ""); [simpl; congruence|].
  set (key := generateCacheKey fingerprint (config p) db1).
  cbn [Adapter_Get MemoryAdapter_Adapter].
  pose proof (Get_stable m m2 t1 t3 key Hs Ht) as Hst.
  destruct (MemoryAdapter_Get m t1 key) as [[d1 e1] m'].
  destruct (MemoryAdapter_Get m2 t3 key) as [[d2 e2] m2'].
  simpl in Hst. destruct Hst as [[= -> ->]|[msg [= -> ->]]].
  - destruct e1; [simpl; congruence|].
    destruct (Dest (Statement db1)); [|simpl; congruence].
    destruct (Unmarshal _ _ _) as [dest [e|]]; simpl; congruence.
  - destruct e1 as [e1|]; [simpl; congruence|].
    destruct (Dest (Statement db1)); [|simpl; congruence].
    destruct (Unmarshal _ _ _) as [dest [e|]]; simpl; congruence.
Qed.

Lemma queryCallback_Get_only p db (m : MemoryAdapter) now :
  (queryCallback BuildQuerySQL fingerprint p now db m).2 = m.
Proof.
  unfold queryCallback.
  destruct (Error db); [reflexivity|].
  destruct (shouldSkipCache (config p) db); [reflexivity|].
  destruct (negb (shouldCacheModel (config p) db)); [reflexivity|].
  destruct (String.eqb _ ""); [reflexivity|].
  cbn [Adapter_Get MemoryAdapter_Adapter].
  match goal with
  | |- context [MemoryAdapter_Get m now ?k] =>
      pose proof (Get_state m now k) as Hg;
      destruct (MemoryAdapter_Get m now k) as [[d e] m']
  end.
  simpl in Hg. subst m'. destruct e; [reflexivity|].
  destruct (Dest _); [|reflexivity].
  destruct (Unmarshal _ _ _) as [dest [e|]]; reflexivity.
Qed.

(** A read for which the before-query step sets no failure is the
    after-query step applied to what the source returns. *)
Lemma Find_runs_source p src db (m : MemoryAdapter) (t1 t2 : Time) :
  Error (queryCallback BuildQuerySQL fingerprint p t1 db m).1 = None ->
  Find BuildQuerySQL fingerprint Database runQuery p src t1 t2 db m
  = afterQueryCallback p t2
      (runQuery src (queryCallback BuildQuerySQL fingerprint p t1 db m).1) m.
Proof.
  unfold Find. pose proof (queryCallback_Get_only p db m t1) as Hq.
  destruct (queryCallback BuildQuerySQL fingerprint p t1 db m) as [db1 ma].
  simpl in *. subst ma. unfold gorm_Query. now intros ->.
Qed.

(** C1. A read that is run against the source (the before-query step set
    no marker) and gets zero rows leaves the in-memory adapter exactly as
    it was: nothing is stored under the derived key or any other.  When
    an insert follows, and then the same read at a later clock reading,
    that read is run against the source again and its destination is the
    one the source filled from the data with the inserted item.  More
    generally, for any adapter, the after-query step of a call with
    [RowsAffected = 0] returns the adapter it was given, and an adapter
    that records its calls has recorded none. *)
Theorem empty_result_is_not_cached p src db dbc (m : MemoryAdapter)
    (t1 t2 t3 t4 : Time) :
  let find := Find BuildQuerySQL fingerprint Database runQuery in
  let q1 := queryCallback BuildQuerySQL fingerprint p t1 db m in
  Error q1.1 = None ->
  RowsAffected (runQuery src q1.1) = 0 ->
  t1 <= t3 ->
  let m1 := (find p src t1 t2 db m).2 in
  let created := Create Database runCreate p src dbc m1 in
  let src' := created.1.1 in
  let m2 := created.2 in
  let q2 := queryCallback BuildQuerySQL fingerprint p t3 db m2 in
  m1 = m
  /\ Error q2.1 = None
  /\ find p src' t3 t4 db m2 = afterQueryCallback p t4 (runQuery src' q2.1) m2
  /\ Dest (Statement (find p src' t3 t4 db m2).1)
     = Dest (Statement (runQuery src' q2.1))
  /\ (forall now db' a,
        RowsAffected db' = 0 -> (afterQueryCallback p now db' a).2 = a)
  /\ (forall now db' (r : Recorder A),
        RowsAffected db' = 0 ->
        calls (afterQueryCallback p now db' r).2 = calls r).
Proof.
  intros find q1 Hrun Hrows Ht m1 created src' m2 q2.
  assert (m1 = m) as Hm1.
  { subst m1 find q1. rewrite Find_runs_source by assumption.
    now apply afterQueryCallback_empty. }
  assert (Error q2.1 = None) as Hrun2.
  { subst q2. apply queryCallback_runs_again with m t1; try assumption.
    subst m2 created. rewrite Hm1. apply Create_shrinks. }
  assert (find p src' t3 t4 db m2
          = afterQueryCallback p t4 (runQuery src' q2.1) m2) as Hfind.
  { subst find q2. now apply Find_runs_source. }
  split; [exact Hm1|]. split; [exact Hrun2|]. split; [exact Hfind|].
  split; [now rewrite Hfind, afterQueryCallback_Statement|].
  split.
  - intros now db' a. apply afterQueryCallback_empty.
  - intros now db' r Hz. now rewrite afterQueryCallback_empty.
Qed.

End EngineProperties.

(** ** The callbacks on concrete calls *)

Section HostRuns.

Import Host.

(** The run of [TestEmptyResultsNotCached]: a read of the empty table, an
    insert, the same read again. *)
Lemma empty_result_is_not_cached_witness :
  let m1 := (find [] 1000 1001 Host.findUsers NewMemoryAdapter).2 in
  let created := create [] (Host.createUser "New User") m1 in
  m1 = NewMemoryAdapter
  /\ Dest (Statement (find created.1.1 2000 2001 Host.findUsers created.2).1)
     = Some (VPtr (TySlice (TyNamed "main.TestUser"))
                  (Some (Host.rows ["New User"]))).
Proof.
  intros m1 created.
  destruct (empty_result_is_not_cached (A := MemoryAdapter)
              Host.BuildQuerySQL Host.fingerprint Host.Database
              Host.runQuery Host.runCreate Host.plugin []
              Host.findUsers (Host.createUser "New User") NewMemoryAdapter
              1000 1001 2000 2001)
    as (Hm & _ & _ & Hdest & _).
  - reflexivity.
  - reflexivity.
  - vm_compute. congruence.
  - split; [exact Hm|]. etransitivity; [exact Hdest|]. reflexivity.
Defined.

(** A call that arrives with a failure of the driver. *)
Lemma queryCallback_keeps_prior_failure_witness :
  let db := set_Error Host.findUsers
              (Some (errors_New "database is locked")) in
  queryCallback Host.BuildQuerySQL Host.fingerprint Host.plugin 1000 db
                NewMemoryAdapter
  = (db, NewMemoryAdapter).
Proof.
  intros db.
  exact (proj1 (queryCallback_keeps_prior_failure (A := MemoryAdapter)
                  Host.BuildQuerySQL Host.fingerprint Host.Database
                  Host.runQuery Host.plugin 1000 db NewMemoryAdapter
                  (errors_New "database is locked") eq_refl)).
Defined.



End HostRuns.

(** * Further properties of the code *)

(** ** The in-memory adapter: removal, sweeping, life cycle *)

Section MemoryAdapterMore.

Implicit Types (m : MemoryAdapter) (k key pattern : string).
Implicit Types (now : Time) (v : bytes) (t ttl : Duration).

Lemma with_store_id m : with_store m (store m) = m.
Proof. now destruct m. Qed.

Lemma with_store_eq m (s1 s2 : gmap string cacheItem) :
  (forall k, s1 !! k = s2 !! k) -> with_store m s1 = with_store m s2.
Proof. intros Heq. f_equal. now apply map_eq. Qed.

Lemma Get_lookup m now k :
  (MemoryAdapter_Get m now k).1
  = match store m !! k with
    | None => ([], Some (errors_New "key not found"))
    | Some item =>
        if expired now item then ([], Some (errors_New "key expired"))
        else (value item, None)
    end.
Proof.
  unfold MemoryAdapter_Get. destruct (store m !! k) as [item|]; [|reflexivity].
  destruct (expired now item); reflexivity.
Qed.

(** X1. An entry set with a TTL that is zero or negative never expires:
    [Get] returns its value at every clock reading, and the sweeper never
    removes it. *)
Theorem Set_nonpositive_ttl_never_expires m k v ttl now0 now1 :
  ttl <= 0 ->
  let m' := (MemoryAdapter_Set m now0 k v ttl).2 in
  (MemoryAdapter_Get m' now1 k).1 = (v, None)
  /\ store (cleanup m' now1) !! k = Some {| value := v; expiration := 0 |}.
Proof.
  intros Httl m'. subst m'.
  assert ((0 <? ttl) = false) as Hneg by (apply Z.ltb_ge; lia).
  split.
  - rewrite Get_lookup, Set_lookup, Hneg, decide_True by reflexivity.
    reflexivity.
  - rewrite cleanup_lookup, Set_lookup, Hneg, decide_True by reflexivity.
    reflexivity.
Qed.

Lemma Set_nonpositive_ttl_never_expires_witness :
  (MemoryAdapter_Get
     (MemoryAdapter_Set NewMemoryAdapter 1000 "test:key"
        (String.list_byte_of_string "test value") 0).2
     (1000 + 365 * 24 * 60 * Minute) "test:key").1
  = (String.list_byte_of_string "test value", None).
Proof.
  exact (proj1 (Set_nonpositive_ttl_never_expires NewMemoryAdapter "test:key"
                  (String.list_byte_of_string "test value") 0 1000
                  (1000 + 365 * 24 * 60 * Minute) (Z.le_refl 0))).
Defined.

(** X2. [Delete] never fails.  Afterwards [Get] of the deleted key answers
    [key not found] at every clock reading and [Get] of every other key
    answers as before; deleting a key that is not stored leaves the adapter
    as it is, so that a second [Delete] of the same key changes nothing. *)
Theorem Delete_removes_only_that_key m k :
  (MemoryAdapter_Delete m k).1 = None
  /\ (forall now,
        (MemoryAdapter_Get (MemoryAdapter_Delete m k).2 now k).1
        = ([], Some (errors_New "key not found")))
  /\ (forall now k',
        k' <> k ->
        (MemoryAdapter_Get (MemoryAdapter_Delete m k).2 now k').1
        = (MemoryAdapter_Get m now k').1)
  /\ (store m !! k = None -> (MemoryAdapter_Delete m k).2 = m)
  /\ (MemoryAdapter_Delete (MemoryAdapter_Delete m k).2 k).2
     = (MemoryAdapter_Delete m k).2.
Proof.
  split; [reflexivity|]. split.
  { intros now. rewrite Get_lookup. simpl. now rewrite lookup_delete_eq. }
  split.
  { intros now k' Hne. rewrite !Get_lookup. simpl.
    now rewrite lookup_delete_ne by congruence. }
  split.
  { intros Hk. simpl. rewrite delete_id by assumption. apply with_store_id. }
  simpl. unfold with_store. simpl. f_equal. apply delete_id, lookup_delete_eq.
Qed.

(** X3. [Clear] and [DeletePattern("*")] leave the same adapter: an empty
    store, with the sweeper's flag and stop channel untouched; afterwards
    every [Get] answers [key not found]. *)
Theorem Clear_is_DeletePattern_star m :
  (MemoryAdapter_Clear m).2 = (MemoryAdapter_DeletePattern m "*").2
  /\ store (MemoryAdapter_Clear m).2 = ∅
  /\ stopCh (MemoryAdapter_Clear m).2 = stopCh m
  /\ cleanUp (MemoryAdapter_Clear m).2 = cleanUp m
  /\ (forall now k,
        (MemoryAdapter_Get (MemoryAdapter_Clear m).2 now k).1
        = ([], Some (errors_New "key not found"))).
Proof.
  split.
  { cbn [MemoryAdapter_Clear snd].
    change (MemoryAdapter_DeletePattern m "*").2
      with (with_store m (store (MemoryAdapter_DeletePattern m "*").2)).
    apply with_store_eq. intros k.
    rewrite DeletePattern_lookup, lookup_empty.
    now rewrite orb_true_r. }
  repeat split.
Qed.

(** X4. Sweeping is invisible to readers: at a clock reading that is not
    before the one the sweeper used, [Get] returns the same data after
    [cleanup] as without it, and fails after [cleanup] exactly when it
    would have failed without it. *)
Theorem cleanup_invisible_to_Get m now now' k :
  now <= now' ->
  (MemoryAdapter_Get (cleanup m now) now' k).1.1
  = (MemoryAdapter_Get m now' k).1.1
  /\ ((MemoryAdapter_Get (cleanup m now) now' k).1.2 = None
      <-> (MemoryAdapter_Get m now' k).1.2 = None).
Proof.
  intros Hle. rewrite !Get_lookup, cleanup_lookup.
  destruct (store m !! k) as [item|]; [|split; reflexivity].
  destruct (expired now item) eqn:Hexp; [|split; reflexivity].
  assert (expired now' item = true) as ->.
  { apply expired_iff in Hexp. apply expired_iff. lia. }
  simpl. split; [reflexivity|]. split; discriminate.
Qed.

Lemma cleanup_invisible_to_Get_witness :
  let m := (MemoryAdapter_Set NewMemoryAdapter 1000 "test:key"
              (String.list_byte_of_string "test value")
              (100 * Millisecond)).2 in
  (MemoryAdapter_Get (cleanup m (1000 + Minute)) (1000 + 2 * Minute)
                     "test:key").1.1
  = (MemoryAdapter_Get m (1000 + 2 * Minute) "test:key").1.1.
Proof.
  intros m.
  apply (cleanup_invisible_to_Get m (1000 + Minute) (1000 + 2 * Minute)
           "test:key").
  vm_compute. congruence.
Defined.

(** X5. After [cleanup] no stored entry is expired at the sweeper's clock
    reading, every entry that is left was there before, and an entry
    without expiration is never removed.  Sweeping again at the same or an
    earlier reading changes nothing. *)
Theorem cleanup_leaves_no_expired_entry m now :
  (forall k item,
      store (cleanup m now) !! k = Some item ->
      expired now item = false /\ store m !! k = Some item)
  /\ (forall k item,
        store m !! k = Some item -> expiration item = 0 ->
        store (cleanup m now) !! k = Some item)
  /\ (forall now2, now2 <= now -> cleanup (cleanup m now) now2 = cleanup m now).
Proof.
  split.
  { intros k item. rewrite cleanup_lookup.
    destruct (store m !! k) as [item'|]; [|discriminate].
    destruct (expired now item') eqn:Hexp; [discriminate|].
    intros [= <-]. auto. }
  split.
  { intros k item Hk Hzero. rewrite cleanup_lookup, Hk.
    destruct (expired now item) eqn:Hexp; [|reflexivity].
    apply expired_iff in Hexp. tauto. }
  intros now2 Hle.
  etransitivity; [|apply (with_store_id (cleanup m now))].
  unfold cleanup at 1. apply with_store_eq. intros k.
  pose proof (cleanup_lookup (cleanup m now) now2 k) as Hl.
  unfold cleanup at 1 in Hl. cbn [store with_store] in Hl. rewrite Hl.
  rewrite cleanup_lookup. destruct (store m !! k) as [item|]; [|reflexivity].
  destruct (expired now item) eqn:Hexp; [reflexivity|].
  destruct (expired now2 item) eqn:Hexp2; [|reflexivity].
  apply expired_iff in Hexp2.
  assert (expired now item = true) by (apply expired_iff; lia). congruence.
Qed.

Lemma MemoryAdapter_ext (m1 m2 : MemoryAdapter) :
  stopCh m1 = stopCh m2 -> cleanUp m1 = cleanUp m2 ->
  (forall k, store m1 !! k = store m2 !! k) -> m1 = m2.
Proof.
  destruct m1, m2. simpl. intros -> -> Heq. f_equal. now apply map_eq.
Qed.

Lemma HasSuffix_star : HasSuffix "*" "*" = true.
Proof. reflexivity. Qed.

Lemma append_empty_r (s : string) : s ++ "" = s.
Proof.
  induction s as [|c s IH]; [reflexivity|].
  change (String c (s ++ "") = String c s). now rewrite IH.
Qed.

Lemma HasPrefix_refl (s : string) : HasPrefix s s = true.
Proof. apply HasPrefix_spec. exists "". symmetry. apply append_empty_r. Qed.

(** X6. A pattern that does not end in [*] is used as a prefix all the
    same: [DeletePattern] removes every key that starts with the whole
    pattern, the key equal to the pattern included, and keeps the others.
    The empty pattern therefore empties the store. *)
Theorem DeletePattern_without_star_is_prefix m pattern :
  HasSuffix pattern "*" = false ->
  (forall k,
      store (MemoryAdapter_DeletePattern m pattern).2 !! k
      = if HasPrefix k pattern then None else store m !! k)
  /\ store (MemoryAdapter_DeletePattern m pattern).2 !! pattern = None
  /\ (pattern = "" -> store (MemoryAdapter_DeletePattern m pattern).2 = ∅).
Proof.
  intros Hsuf.
  assert (forall k,
             store (MemoryAdapter_DeletePattern m pattern).2 !! k
             = if HasPrefix k pattern then None else store m !! k) as Hl.
  { intros k. rewrite DeletePattern_lookup. unfold TrimSuffix. rewrite Hsuf.
    destruct (String.eqb pattern "*") eqn:Heq; [|now rewrite orb_false_r].
    apply String.eqb_eq in Heq. subst pattern.
    rewrite HasSuffix_star in Hsuf. discriminate. }
  split; [exact Hl|]. split.
  - now rewrite Hl, HasPrefix_refl.
  - intros ->. apply map_eq. intros k.
    now rewrite Hl, HasPrefix_empty, lookup_empty.
Qed.

Lemma DeletePattern_without_star_is_prefix_witness :
  let m1 := (MemoryAdapter_Set NewMemoryAdapter 1000 "user:1"
               (String.list_byte_of_string "value1") Minute).2 in
  let m2 := (MemoryAdapter_Set m1 1000 "order:1"
               (String.list_byte_of_string "value3") Minute).2 in
  store (MemoryAdapter_DeletePattern m2 "user:").2 !! "user:1" = None
  /\ is_Some (store (MemoryAdapter_DeletePattern m2 "user:").2 !! "order:1").
Proof.
  intros m1 m2.
  destruct (DeletePattern_without_star_is_prefix m2 "user:" eq_refl)
    as (Hl & _ & _).
  split.
  - rewrite Hl. reflexivity.
  - rewrite Hl. vm_compute. eauto.
Defined.

(** X7. [DeletePattern] never fails and never adds or changes an entry.
    Applying the same pattern twice is the same as applying it once, and
    two patterns can be applied in either order. *)
Theorem DeletePattern_idempotent_and_commutes m (p q : string) :
  (MemoryAdapter_DeletePattern m p).1 = None
  /\ (forall k,
        store (MemoryAdapter_DeletePattern m p).2 !! k = None
        \/ store (MemoryAdapter_DeletePattern m p).2 !! k = store m !! k)
  /\ (MemoryAdapter_DeletePattern (MemoryAdapter_DeletePattern m p).2 p).2
     = (MemoryAdapter_DeletePattern m p).2
  /\ (MemoryAdapter_DeletePattern (MemoryAdapter_DeletePattern m p).2 q).2
     = (MemoryAdapter_DeletePattern (MemoryAdapter_DeletePattern m q).2 p).2.
Proof.
  split; [reflexivity|]. split.
  { intros k. rewrite DeletePattern_lookup. destruct (_ || _); auto. }
  split.
  - apply MemoryAdapter_ext; try reflexivity. intros k.
    rewrite !DeletePattern_lookup. now destruct (_ || _).
  - apply MemoryAdapter_ext; try reflexivity. intros k.
    rewrite !DeletePattern_lookup.
    now destruct (HasPrefix k (TrimSuffix p "*") || String.eqb p "*"),
                 (HasPrefix k (TrimSuffix q "*") || String.eqb q "*").
Qed.

Lemma runOp_frame (o : storeOp) m :
  stopCh (runOp o m) = stopCh m /\ cleanUp (runOp o m) = cleanUp m.
Proof.
  destruct o; simpl; try (split; reflexivity).
  rewrite Get_state. split; reflexivity.
Qed.

(** X8. On every adapter a program can hold, the flag [cleanUp] and the
    stop channel agree.  Either the adapter is open: the channel is open,
    the flag is set, a tick of the sweeper runs [cleanup], the sweeper
    cannot take the stop case, and [Close] returns without error.  Or it is
    closed: the channel is closed, the flag is cleared, the sweeper returns
    at its next step, and [Close] panics. *)
Theorem reachable_open_or_closed m :
  reachable m ->
  (stopCh m = ChanOpen /\ cleanUp m = true
   /\ (forall now, startCleanup_step m now tickerFired = Some (cleanup m now))
   /\ selectReady m stopReceived = false
   /\ exists m', MemoryAdapter_Close m = Returns (None, m')
                 /\ store m' = store m)
  \/ (stopCh m = ChanClosed /\ cleanUp m = false
      /\ (forall now c, startCleanup_step m now c = None)
      /\ MemoryAdapter_Close m = Panics "close of closed channel").
Proof.
  assert (forall m, stopCh m = ChanOpen -> cleanUp m = true ->
            stopCh m = ChanOpen /\ cleanUp m = true
            /\ (forall now,
                   startCleanup_step m now tickerFired = Some (cleanup m now))
            /\ selectReady m stopReceived = false
            /\ exists m', MemoryAdapter_Close m = Returns (None, m')
                          /\ store m' = store m) as Hopen.
  { clear. intros m Hc Hf. repeat split; try assumption.
    - intros now. simpl. now rewrite Hf.
    - simpl. now rewrite Hc.
    - unfold MemoryAdapter_Close. simpl. rewrite Hc. simpl. eauto. }
  assert (forall m, stopCh m = ChanClosed -> cleanUp m = false ->
            stopCh m = ChanClosed /\ cleanUp m = false
            /\ (forall now c, startCleanup_step m now c = None)
            /\ MemoryAdapter_Close m = Panics "close of closed channel")
    as Hclosed.
  { clear. intros m Hc Hf. repeat split; try assumption.
    - intros now []; simpl; [now rewrite Hf | reflexivity].
    - unfold MemoryAdapter_Close. simpl. now rewrite Hc. }
  induction 1 as [|o m Hr IH|m m' e Hr IH Hclose].
  - left. now apply Hopen.
  - destruct (runOp_frame o m) as [Hc Hf].
    destruct IH as [(Hc' & Hf' & _)|(Hc' & Hf' & _)].
    + left. apply Hopen; congruence.
    + right. apply Hclosed; congruence.
  - right. unfold MemoryAdapter_Close in Hclose. simpl in Hclose.
    destruct (stopCh m); simpl in Hclose; [|discriminate].
    injection Hclose as _ <-. now apply Hclosed.
Qed.

Lemma reachable_open_or_closed_witness :
  let m := (MemoryAdapter_Set NewMemoryAdapter 1000 "test:key"
              (String.list_byte_of_string "test value") Minute).2 in
  stopCh m = ChanOpen /\ cleanUp m = true.
Proof.
  intros m.
  destruct (reachable_open_or_closed m
              (reach_op (OpSet 1000 "test:key"
                           (String.list_byte_of_string "test value") Minute)
                        NewMemoryAdapter reach_new))
    as [(Hc & Hf & _)|(Hc & _)].
  - split; assumption.
  - discriminate Hc.
Defined.

End MemoryAdapterMore.

(** ** Keys and invalidation patterns *)

Section KeysAndPatterns.

Implicit Types (c : Config) (db dbr dbw : gorm_DB) (m : MemoryAdapter).
Implicit Types (p : CachePlugin) (k : string).

Variable fingerprint : string -> list any -> string.

Lemma append_assoc (a b d : string) : (a ++ b) ++ d = a ++ b ++ d.
Proof.
  induction a as [|x a IH]; [reflexivity|].
  change (String x ((a ++ b) ++ d) = String x (a ++ b ++ d)). now rewrite IH.
Qed.

Lemma append_inj_l (a x y : string) : a ++ x = a ++ y -> x = y.
Proof.
  induction a as [|ch a IH]; [auto|].
  change (String ch (a ++ x) = String ch (a ++ y) -> x = y).
  intros [= Heq]. auto.
Qed.

Lemma HasPrefix_app_both (a s q : string) :
  HasPrefix (a ++ s) (a ++ q) = HasPrefix s q.
Proof.
  apply eq_true_iff_eq. rewrite !HasPrefix_spec. split.
  - intros [rest Heq]. rewrite append_assoc in Heq.
    apply append_inj_l in Heq. eauto.
  - intros [rest ->]. exists rest. now rewrite append_assoc.
Qed.

(** Two texts without the byte [ch] that are each followed by [ch] in the
    same text are equal. *)
Lemma occurs_split_unique (ch : ascii) (t1 t2 r1 r2 : string) :
  occurs ch t1 = false -> occurs ch t2 = false ->
  t1 ++ String ch r1 = t2 ++ String ch r2 -> t1 = t2.
Proof.
  revert t2. induction t1 as [|x t1 IH]; intros [|y t2] H1 H2 Heq.
  - reflexivity.
  - change (String ch r1 = String y (t2 ++ String ch r2)) in Heq.
    injection Heq as -> _. simpl in H2. now rewrite Ascii.eqb_refl in H2.
  - change (String x (t1 ++ String ch r1) = String ch r2) in Heq.
    injection Heq as -> _. simpl in H1. now rewrite Ascii.eqb_refl in H1.
  - change (String x (t1 ++ String ch r1) = String y (t2 ++ String ch r2))
      in Heq.
    injection Heq as -> Heq. simpl in H1, H2.
    apply orb_false_iff in H1 as [_ H1]. apply orb_false_iff in H2 as [_ H2].
    f_equal. eauto.
Qed.

(** What [invalidateCallback] leaves in the store when it acts: the
    entries whose key does not start with the text of the model's pattern
    before its [*]. *)
Lemma invalidateCallback_lookup p dbw m k :
  Error dbw = None -> shouldCacheModel (config p) dbw = true ->
  store (invalidateCallback p dbw m).2 !! k
  = if HasPrefix k (match Schema (Statement dbw) with
                    | None => KeyPrefix (config p)
                    | Some sch => KeyPrefix (config p) ++ Table sch ++ ":"
                    end)
    then None else store m !! k.
Proof.
  intros Herr Hmodel. unfold invalidateCallback. rewrite Herr, Hmodel.
  cbn [negb Adapter_DeletePattern MemoryAdapter_Adapter].
  pose proof (DeletePattern_star_lookup m
                (match Schema (Statement dbw) with
                 | None => KeyPrefix (config p)
                 | Some sch => KeyPrefix (config p) ++ Table sch ++ ":"
                 end) k) as Hl.
  assert (getModelPattern (config p) dbw
          = (match Schema (Statement dbw) with
             | None => KeyPrefix (config p)
             | Some sch => KeyPrefix (config p) ++ Table sch ++ ":"
             end) ++ "*") as Hpat.
  { unfold getModelPattern. destruct (Schema (Statement dbw)) as [sch|];
      [|reflexivity].
    now rewrite !append_assoc. }
  rewrite Hpat.
  destruct (MemoryAdapter_DeletePattern m _) as [e m']. exact Hl.
Qed.

(** X9. With the built-in key generator, a mutation that succeeded on a
    cacheable model removes the cached read of every call on the same
    table: after [invalidateCallback], the key derived for such a read is
    not in the store, and [Get] answers [key not found]. *)
Theorem invalidate_removes_reads_of_same_table p dbw dbr m sw sr :
  Error dbw = None ->
  shouldCacheModel (config p) dbw = true ->
  CacheKeyGenerator (config p) = None ->
  Schema (Statement dbw) = Some sw ->
  Schema (Statement dbr) = Some sr ->
  Table sw = Table sr ->
  let key := generateCacheKey fingerprint (config p) dbr in
  let m' := (invalidateCallback p dbw m).2 in
  store m' !! key = None
  /\ (forall now,
        (MemoryAdapter_Get m' now key).1
        = ([], Some (errors_New "key not found"))).
Proof.
  intros Herr Hmodel Hgen Hsw Hsr Htab key m'.
  assert (store m' !! key = None) as Hgone.
  { subst m' key. rewrite invalidateCallback_lookup by assumption.
    unfold generateCacheKey. rewrite Hgen, Hsw, Hsr, Htab.
    rewrite HasPrefix_app_both, HasPrefix_app_both.
    now rewrite (HasPrefix_app ":" _). }
  split; [exact Hgone|]. intros now. now rewrite Get_lookup, Hgone.
Qed.

(** X10. Every key the plugin derives starts with the configured prefix,
    whichever generator is configured.  The pattern of a mutation on a
    call without a schema is that prefix followed by [*].  So for a
    mutation that succeeded on such a call: with an empty allow-list (the
    only case in which the call is cacheable) [invalidateCallback] removes
    every cached read of the plugin; with a non-empty allow-list it does
    nothing, and every cached read stays. *)
Theorem invalidate_without_schema_removes_all p dbw dbr m :
  Error dbw = None ->
  Schema (Statement dbw) = None ->
  let key := generateCacheKey fingerprint (config p) dbr in
  HasPrefix key (KeyPrefix (config p)) = true
  /\ (CacheModels (config p) = [] ->
      store (invalidateCallback p dbw m).2 !! key = None)
  /\ (CacheModels (config p) <> [] ->
      invalidateCallback p dbw m = (dbw, m)).
Proof.
  intros Herr Hsw key.
  assert (HasPrefix key (KeyPrefix (config p)) = true) as Hpre.
  { subst key. unfold generateCacheKey.
    destruct (CacheKeyGenerator (config p)); apply HasPrefix_app. }
  split; [exact Hpre|]. split.
  - intros Hempty.
    assert (shouldCacheModel (config p) dbw = true) as Hmodel.
    { unfold shouldCacheModel. now rewrite Hempty. }
    rewrite invalidateCallback_lookup by assumption. now rewrite Hsw, Hpre.
  - intros Hne.
    assert (shouldCacheModel (config p) dbw = false) as Hmodel.
    { unfold shouldCacheModel.
      destruct (CacheModels (config p)); [congruence|]. now rewrite Hsw. }
    unfold invalidateCallback. now rewrite Herr, Hmodel.
Qed.

(** X11. With the built-in key generator, a mutation on one table leaves
    the cached reads of every other table in the store, provided no table
    name contains a colon.  Reads without a schema count as reads of the
    table [unknown]. *)
Theorem invalidate_keeps_reads_of_other_tables p dbw dbr m sw :
  Error dbw = None ->
  shouldCacheModel (config p) dbw = true ->
  CacheKeyGenerator (config p) = None ->
  Schema (Statement dbw) = Some sw ->
  let tableName := match Schema (Statement dbr) with
                   | Some sch => Table sch
                   | None => "unknown"
                   end in
  Table sw <> tableName ->
  occurs ":" (Table sw) = false ->
  occurs ":" tableName = false ->
  let key := generateCacheKey fingerprint (config p) dbr in
  store (invalidateCallback p dbw m).2 !! key = store m !! key.
Proof.
  intros Herr Hmodel Hgen Hsw tableName Hne Hc1 Hc2 key.
  rewrite invalidateCallback_lookup by assumption. rewrite Hsw.
  assert (key = KeyPrefix (config p) ++ tableName ++ ":"
                ++ fingerprint (SQL (Statement dbr)) (Vars (Statement dbr)))
    as ->.
  { subst key tableName. unfold generateCacheKey. now rewrite Hgen. }
  rewrite HasPrefix_app_both.
  destruct (HasPrefix _ (Table sw ++ ":")) eqn:Hp; [|reflexivity].
  exfalso. apply HasPrefix_spec in Hp as [rest Heq].
  rewrite append_assoc in Heq. apply Hne. symmetry.
  now apply (occurs_split_unique ":"%char) in Heq.
Qed.

(** X12. With a custom key generator, a mutation on a table removes a
    cached read exactly when the mutation carries no failure, its model is
    cacheable, and the text the generator returned for that read starts
    with the table name and a colon; in every other case the cached read
    stays in the store as it was. *)
Theorem invalidate_with_custom_keys p dbw dbr m sw gen :
  CacheKeyGenerator (config p) = Some gen ->
  Schema (Statement dbw) = Some sw ->
  let key := generateCacheKey fingerprint (config p) dbr in
  store (invalidateCallback p dbw m).2 !! key
  = if match Error dbw with None => true | Some _ => false end
       && shouldCacheModel (config p) dbw
       && HasPrefix (gen dbr) (Table sw ++ ":")
    then None else store m !! key.
Proof.
  intros Hgen Hsw key.
  destruct (Error dbw) as [e|] eqn:Herr.
  { unfold invalidateCallback. now rewrite Herr. }
  destruct (shouldCacheModel (config p) dbw) eqn:Hmodel.
  - rewrite invalidateCallback_lookup by assumption. rewrite Hsw.
    subst key. unfold generateCacheKey. rewrite Hgen.
    now rewrite HasPrefix_app_both.
  - unfold invalidateCallback. now rewrite Herr, Hmodel.
Qed.

End KeysAndPatterns.

(** ** The callbacks: what they store, what they call, what they return *)

Section EngineMore.

Context {A : Type} `{Adapter A}.
Variable BuildQuerySQL : gorm_DB -> gorm_DB.
Variable fingerprint : string -> list any -> string.
Variable Database : Type.
Variable runQuery : Database -> gorm_DB -> gorm_DB.

Implicit Types (p : CachePlugin) (db : gorm_DB) (a : A) (now : Time).
Implicit Types (src : Database) (m : MemoryAdapter).

Lemma queryCallback_hit p now db a data dest a' :
  let db1 := if (String.length (SQL (Statement db)) =? 0)%nat
             then BuildQuerySQL db else db in
  Error db = None ->
  shouldSkipCache (config p) db = false ->
  shouldCacheModel (config p) db = true ->
  SQL (Statement db1) <> "" ->
  Adapter_Get a now (generateCacheKey fingerprint (config p) db1)
  = ((data, None), a') ->
  Dest (Statement db1) <> None ->
  Unmarshal (Serializer_ (config p)) data (Dest (Statement db1))
  = (dest, None) ->
  queryCallback BuildQuerySQL fingerprint p now db a
  = (set_Error (set_Dest db1 dest)
               (Some (ErrCacheHit (calculateRowsAffected dest))), a').
Proof.
  intros db1 Herr Hskip Hmodel Hsql Hget Hdest Hunm.
  unfold queryCallback. rewrite Herr, Hskip, Hmodel. cbn [negb].
  fold db1. apply String.eqb_neq in Hsql. rewrite Hsql, Hget.
  destruct (Dest (Statement db1)) as [d|] eqn:Hd; [|congruence].
  now rewrite Hunm.
Qed.

(** X13. A read that is answered from the cache does not depend on the
    source: on a hit (the conditions of the hit as in the before-query
    step), the query chain returns the same call and the same adapter
    whatever the state of the source of truth is. *)
Theorem cache_hit_ignores_source p now1 now2 db a data dest a' :
  let db1 := if (String.length (SQL (Statement db)) =? 0)%nat
             then BuildQuerySQL db else db in
  Error db = None ->
  shouldSkipCache (config p) db = false ->
  shouldCacheModel (config p) db = true ->
  SQL (Statement db1) <> "" ->
  Adapter_Get a now1 (generateCacheKey fingerprint (config p) db1)
  = ((data, None), a') ->
  Dest (Statement db1) <> None ->
  Unmarshal (Serializer_ (config p)) data (Dest (Statement db1))
  = (dest, None) ->
  forall src src',
    Find BuildQuerySQL fingerprint Database runQuery p src now1 now2 db a
    = Find BuildQuerySQL fingerprint Database runQuery p src' now1 now2 db a.
Proof.
  intros db1 Herr Hskip Hmodel Hsql Hget Hdest Hunm src src'.
  unfold Find.
  rewrite (queryCallback_hit p now1 db a data dest a') by assumption.
  reflexivity.
Qed.

(** X14. A miss followed by a successful, non-empty read writes the result
    through: with the in-memory adapter, when [Get] fails for the derived
    key, the source returns rows without failure, the call is still
    cacheable after the source ran and carries the remembered key, and
    [Marshal] succeeds, the query chain returns what the source returned
    and the adapter after one [Set] of the payload under that key with the
    configured TTL.  With a positive TTL, [Get] of the key returns the
    payload up to that long after the [Set]. *)
Theorem miss_writes_result_through p src now1 now2 db m payload :
  let db1 := if (String.length (SQL (Statement db)) =? 0)%nat
             then BuildQuerySQL db else db in
  let key := generateCacheKey fingerprint (config p) db1 in
  let db2 := runQuery src (Settings_Store db1 "gorm:cache:key"
                                          (Some (VString key))) in
  Error db = None ->
  shouldSkipCache (config p) db = false ->
  shouldCacheModel (config p) db = true ->
  SQL (Statement db1) <> "" ->
  Error db1 = None ->
  (MemoryAdapter_Get m now1 key).1.2 <> None ->
  Error db2 = None ->
  shouldSkipCache (config p) db2 = false ->
  shouldCacheModel (config p) db2 = true ->
  Settings (Statement db2) !! "gorm:cache:key" = Some (Some (VString key)) ->
  RowsAffected db2 <> 0 ->
  Marshal (Serializer_ (config p)) (Dest (Statement db2)) = (payload, None) ->
  Find BuildQuerySQL fingerprint Database runQuery p src now1 now2 db m
  = (db2, (MemoryAdapter_Set m now2 key payload (TTL (config p))).2)
  /\ (forall now3,
        0 < TTL (config p) -> now3 <= now2 + TTL (config p) ->
        (MemoryAdapter_Get
           (Find BuildQuerySQL fingerprint Database runQuery p src now1 now2
                 db m).2 now3 key).1
        = (payload, None)).
Proof.
  intros db1 key db2 Herr Hskip Hmodel Hsql Herr1 Hmiss Herr2 Hskip2 Hmodel2
         Hkey Hrows Hmar.
  assert (Find BuildQuerySQL fingerprint Database runQuery p src now1 now2 db m
          = (db2, (MemoryAdapter_Set m now2 key payload (TTL (config p))).2))
    as Hfind.
  { unfold Find, queryCallback. rewrite Herr, Hskip, Hmodel. cbn [negb].
    fold db1. apply String.eqb_neq in Hsql. rewrite Hsql. fold key.
    cbn [Adapter_Get MemoryAdapter_Adapter].
    pose proof (Get_state m now1 key) as Hst.
    destruct (MemoryAdapter_Get m now1 key) as [[d e] m0].
    simpl in Hmiss, Hst. subst m0. destruct e as [e|]; [|congruence].
    unfold gorm_Query.
    change (Error (Settings_Store db1 "gorm:cache:key" (Some (VString key))))
      with (Error db1).
    rewrite Herr1. fold db2. unfold afterQueryCallback.
    rewrite Herr2, Hskip2, Hmodel2. unfold any in *.
    rewrite Hkey. cbn [negb assert_string].
    apply Z.eqb_neq in Hrows. rewrite Hrows, Hmar.
    cbn [Adapter_Set MemoryAdapter_Adapter].
    now destruct (MemoryAdapter_Set m now2 key payload (TTL (config p))). }
  split; [exact Hfind|].
  intros now3 Hpos Hwithin. rewrite Hfind. cbn [snd].
  rewrite Get_lookup, Set_lookup, decide_True by reflexivity.
  assert ((0 <? TTL (config p)) = true) as -> by (apply Z.ltb_lt; lia).
  destruct (expired now3 _) eqn:Hexp; [|reflexivity].
  apply expired_iff in Hexp. simpl in Hexp. lia.
Qed.

(** X15. Each callback calls the adapter at most once, and only the
    method that belongs to it: [queryCallback] one [Get] of the derived
    key, [afterQueryCallback] one [Set] under the remembered key with the
    configured TTL (and only for a call without failure and with rows),
    [invalidateCallback] one [DeletePattern] of the model's pattern.  No
    callback calls [Delete], [Clear] or [Close]. *)
Theorem callbacks_call_adapter_at_most_once p now db (r : Recorder A) :
  (calls (queryCallback BuildQuerySQL fingerprint p now db r).2 = calls r
   \/ calls (queryCallback BuildQuerySQL fingerprint p now db r).2
      = CallGet (generateCacheKey fingerprint (config p)
                   (if (String.length (SQL (Statement db)) =? 0)%nat
                    then BuildQuerySQL db else db)) :: calls r)
  /\ (calls (afterQueryCallback p now db r).2 = calls r
      \/ exists key data,
           calls (afterQueryCallback p now db r).2
           = CallSet key data (TTL (config p)) :: calls r
           /\ Settings (Statement db) !! "gorm:cache:key"
              = Some (Some (VString key))
           /\ Error db = None /\ RowsAffected db <> 0)
  /\ (calls (invalidateCallback p db r).2 = calls r
      \/ calls (invalidateCallback p db r).2
         = CallDeletePattern (getModelPattern (config p) db) :: calls r).
Proof.
  split; [|split].
  - unfold queryCallback.
    destruct (Error db); [now left|].
    destruct (shouldSkipCache (config p) db); [now left|].
    destruct (negb (shouldCacheModel (config p) db)); [now left|].
    destruct (String.eqb _ ""); [now left|].
    right. cbn [Adapter_Get Recorder_Adapter]. unfold record.
    destruct (Adapter_Get (inner r) now _) as [[d e] a0]. cbn [fst snd].
    destruct e; [reflexivity|].
    destruct (Dest _); [|reflexivity].
    destruct (Unmarshal _ _ _) as [dest [e|]]; reflexivity.
  - unfold afterQueryCallback.
    destruct (Error db) as [[rows|msg]|] eqn:Herr; try now left.
    destruct (shouldSkipCache (config p) db); [now left|].
    destruct (negb (shouldCacheModel (config p) db)); [now left|].
    destruct (Settings (Statement db) !! "gorm:cache:key") as [v|] eqn:Hk;
      [|now left].
    destruct v as [[]|]; cbn [assert_string negb]; try now left.
    destruct (RowsAffected db =? 0) eqn:Hrows; [now left|].
    destruct (Marshal _ _) as [data [e|]]; [now left|].
    right. exists s, data. cbn [Adapter_Set Recorder_Adapter]. unfold record.
    destruct (Adapter_Set (inner r) now s data _) as [e a0]. cbn [fst snd].
    apply Z.eqb_neq in Hrows. auto.
  - unfold invalidateCallback.
    destruct (Error db); [now left|].
    destruct (negb (shouldCacheModel (config p) db)); [now left|].
    right. cbn [Adapter_DeletePattern Recorder_Adapter]. unfold record.
    now destruct (Adapter_DeletePattern (inner r) _).
Qed.

(** X16. The marker of a cache hit never leaves the plugin: whatever the
    call and the adapter, the failure [afterQueryCallback] leaves on the
    call is not an [ErrCacheHit], so the failure a read returns through
    the query chain never is one. *)
Theorem cache_hit_marker_never_leaks p now db a :
  (forall rows, Error (afterQueryCallback p now db a).1
                <> Some (ErrCacheHit rows))
  /\ (forall src now1 rows,
        Error (Find BuildQuerySQL fingerprint Database runQuery p src
                    now1 now db a).1
        <> Some (ErrCacheHit rows)).
Proof.
  assert (forall {B : Type} `{Adapter B} db (b : B) rows,
             Error (afterQueryCallback p now db b).1
             <> Some (ErrCacheHit rows)) as Hafter.
  { clear. intros B HB db b rows. unfold afterQueryCallback.
    destruct (Error db) as [[n|msg]|] eqn:Herr; cbn [fst];
      try (rewrite Herr; discriminate); [simpl; discriminate|].
    destruct (shouldSkipCache (config p) db);
      [cbn [fst]; rewrite Herr; discriminate|].
    destruct (negb (shouldCacheModel (config p) db));
      [cbn [fst]; rewrite Herr; discriminate|].
    destruct (Settings (Statement db) !! "gorm:cache:key") as [v|];
      [|cbn [fst]; rewrite Herr; discriminate].
    destruct (assert_string v) as [key ok].
    destruct (negb ok); [cbn [fst]; rewrite Herr; discriminate|].
    destruct (RowsAffected db =? 0); [cbn [fst]; rewrite Herr; discriminate|].
    destruct (Marshal _ _) as [data [e|]];
      [cbn [fst]; rewrite Herr; discriminate|].
    destruct (Adapter_Set _ _ _ _ _). cbn [fst]. rewrite Herr. discriminate. }
  split; [apply Hafter|].
  intros src now1 rows. unfold Find.
  destruct (queryCallback _ _ _ _ _ _) as [db1 a1]. apply Hafter.
Qed.

(** X17. A read for which caching is bypassed (skipped, or its model not
    cacheable), before the source runs and again after it, never reaches
    the adapter: the query chain returns the adapter it was given, and an
    adapter that records its calls has recorded none.  The call it returns
    is the one the source returned, unless that one carries the plugin's
    marker. *)
Theorem bypassed_read_never_reaches_adapter p src now1 now2 db a :
  shouldSkipCache (config p) db || negb (shouldCacheModel (config p) db)
  = true ->
  shouldSkipCache (config p) (gorm_Query Database runQuery src db)
  || negb (shouldCacheModel (config p) (gorm_Query Database runQuery src db))
  = true ->
  (Find BuildQuerySQL fingerprint Database runQuery p src now1 now2 db a).2 = a
  /\ (forall r : Recorder A,
        calls (Find BuildQuerySQL fingerprint Database runQuery p src
                    now1 now2 db r).2 = calls r)
  /\ ((forall rows, Error (gorm_Query Database runQuery src db)
                    <> Some (ErrCacheHit rows)) ->
      (Find BuildQuerySQL fingerprint Database runQuery p src now1 now2
            db a).1
      = gorm_Query Database runQuery src db).
Proof.
  intros Hb1 Hb2.
  assert (forall {B : Type} `{Adapter B} (b : B),
             queryCallback BuildQuerySQL fingerprint p now1 db b = (db, b))
    as Hq.
  { intros B HB b. unfold queryCallback. destruct (Error db); [reflexivity|].
    destruct (shouldSkipCache (config p) db); [reflexivity|].
    simpl in Hb1. now rewrite Hb1. }
  assert (forall {B : Type} `{Adapter B} (b : B),
             (afterQueryCallback p now2 (gorm_Query Database runQuery src db)
                                 b).2 = b
             /\ ((forall rows, Error (gorm_Query Database runQuery src db)
                               <> Some (ErrCacheHit rows)) ->
                 (afterQueryCallback p now2
                    (gorm_Query Database runQuery src db) b).1
                 = gorm_Query Database runQuery src db)) as Ha.
  { intros B HB b. unfold afterQueryCallback.
    set (db2 := gorm_Query Database runQuery src db) in *.
    destruct (Error db2) as [[n|msg]|].
    - split; [reflexivity|]. intros Hn. now destruct (Hn n).
    - split; reflexivity.
    - destruct (shouldSkipCache (config p) db2); [split; reflexivity|].
      simpl in Hb2. rewrite Hb2. split; reflexivity. }
  unfold Find. split; [|split].
  - rewrite Hq. apply Ha.
  - intros r. rewrite Hq. now rewrite (proj1 (Ha _ _ r)).
  - intros Hn. rewrite Hq. now apply Ha.
Qed.

End EngineMore.

(** ** The resolver: allow-list entries, the skip channel, the scopes *)

Section ResolverMore.

Implicit Types (c : Config) (db : gorm_DB).

(** X18. Allow-list entries given as pointers match no model: when every
    entry of a non-empty allow-list is a pointer value and the model type
    of the call is a defined struct type (whose name, as every Go type
    name, does not start with [*]), [shouldCacheModel] returns [false]. *)
Theorem pointer_entries_match_no_model c db sch name :
  CacheModels c <> [] ->
  (forall x, In x (CacheModels c) -> exists ty target, x = Some (VPtr ty target)) ->
  Schema (Statement db) = Some sch ->
  ModelType sch = TyNamed name ->
  HasPrefix name "*" = false ->
  shouldCacheModel c db = false.
Proof.
  intros Hne Hptr Hsch Hty Hname. unfold shouldCacheModel.
  destruct (CacheModels c) as [|x l] eqn:Hl; [congruence|].
  cbn [length Nat.eqb]. rewrite Hsch, Hty.
  destruct (existsb _ (x :: l)) eqn:Hex; [|reflexivity].
  apply existsb_exists in Hex as [y [Hin Heq]].
  destruct (Hptr y Hin) as [ty [target ->]].
  apply String.eqb_eq in Heq. cbn [Sprintf_T TypeOf Type_String] in Heq.
  rewrite <- Heq, HasPrefix_app in Hname. discriminate.
Qed.

Lemma pointer_entries_match_no_model_witness :
  let c := {| TTL := 5 * Minute;
              CacheModels := [Some (VPtr (TyNamed "main.TestUser")
                                         (Some (Host.row "")))];
              InvalidateOnUpdate := true; InvalidateOnCreate := true;
              InvalidateOnDelete := true; KeyPrefix := "gorm:cache:";
              SkipCacheCondition := None; CacheKeyGenerator := None;
              Serializer_ := Host.lineSerializer |} in
  shouldCacheModel c Host.findUsers = false.
Proof.
  intros c.
  apply (pointer_entries_match_no_model c Host.findUsers Host.testUsers
           "main.TestUser").
  - discriminate.
  - intros x [<-|[]]. eauto.
  - reflexivity.
  - reflexivity.
  - reflexivity.
Defined.

Lemma Context_Value_foreign (later ctx : context_Context) (key : string) :
  Forall (fun kv : ctxKey * any => exists s, kv.1 = foreignKey s) later ->
  Context_Value (later ++ ctx)%list (contextKey key)
  = Context_Value ctx (contextKey key).
Proof.
  induction 1 as [|[k v] later [s Hk] _ IH]; [reflexivity|].
  simpl in Hk. subst k. exact IH.
Qed.

(** X19. The skip channel reads the latest value bound with
    [WithSkipCache]: an earlier skip value is hidden by it, and values
    bound afterwards under keys of other types, whatever their text, do
    not hide it.  A context that was never given a skip value, and a nil
    context, carry no signal. *)
Theorem skip_channel_reads_latest_binding
    (later ctx : context_Context) (b : bool) :
  Forall (fun kv : ctxKey * any => exists s, kv.1 = foreignKey s) later ->
  getSkipCacheFromContext (Some (later ++ WithSkipCache ctx b)%list)
  = (b, true)
  /\ getSkipCacheFromContext (Some (later ++ context_Background)%list)
     = (false, false)
  /\ getSkipCacheFromContext None = (false, false).
Proof.
  intros Hlater. unfold getSkipCacheFromContext, contextKeySkipCache.
  rewrite !Context_Value_foreign by assumption. repeat split.
Qed.

Lemma skip_channel_reads_latest_binding_witness :
  getSkipCacheFromContext
    (Some (context_WithValue
             (WithSkipCache (SkipCacheContext context_Background) false)
             (foreignKey "gorm:cache:skip") (Some (VBool true))))
  = (false, true).
Proof.
  apply (skip_channel_reads_latest_binding
           [(foreignKey "gorm:cache:skip", Some (VBool true))]
           (SkipCacheContext context_Background) false).
  repeat constructor. simpl. eauto.
Defined.

Lemma Settings_Store_Settings db (key : string) (val : any) :
  Settings (Statement (Settings_Store db key val))
  = <[key := val]> (Settings (Statement db)).
Proof. reflexivity. Qed.

(** X20. The scope [SkipCache()] makes the call bypass the cache under
    every configuration.  The scope [EnableCache()] only clears the
    per-call flag, undoing an earlier [SkipCache()]: the skip channel and
    the custom predicate still decide.  Neither scope touches the key
    remembered for the call. *)
Theorem SkipCache_scope_bypasses c db :
  shouldSkipCache c (SkipCache db) = true
  /\ EnableCache (SkipCache db) = EnableCache db
  /\ SkipCache (EnableCache db) = SkipCache db
  /\ shouldSkipCache c (EnableCache db)
     = channelSkip db || customSkip c (EnableCache db)
  /\ Settings (Statement (SkipCache db)) !! "gorm:cache:key"
     = Settings (Statement db) !! "gorm:cache:key"
  /\ Settings (Statement (EnableCache db)) !! "gorm:cache:key"
     = Settings (Statement db) !! "gorm:cache:key".
Proof.
  split.
  { rewrite shouldSkipCache_eq. unfold flagSkip, SkipCache.
    rewrite Settings_Store_Settings, lookup_insert_eq. apply orb_true_r. }
  split.
  { unfold EnableCache, SkipCache, Settings_Store. cbn.
    now rewrite insert_insert_eq. }
  split.
  { unfold EnableCache, SkipCache, Settings_Store. cbn.
    now rewrite insert_insert_eq. }
  split.
  { rewrite shouldSkipCache_eq. unfold flagSkip.
    unfold EnableCache at 3.
    rewrite Settings_Store_Settings, lookup_insert_eq.
    now rewrite orb_false_r. }
  split; unfold SkipCache, EnableCache;
    now rewrite Settings_Store_Settings, lookup_insert_ne.
Qed.

End ResolverMore.

(** ** The further properties on concrete calls *)

Section HostRunsMore.

Import Host.

(** A read of a table of one row fills the cache; the insert that follows
    removes the entry. *)
Lemma invalidate_removes_reads_of_same_table_witness :
  let m1 := (find ["User 1"] 1000 1001 findUsers NewMemoryAdapter).2 in
  let key := generateCacheKey fingerprint (config plugin)
                              (BuildQuerySQL findUsers) in
  is_Some (store m1 !! key)
  /\ store (invalidateCallback plugin (createUser "User 2") m1).2 !! key
     = None.
Proof.
  intros m1 key. split; [vm_compute; eauto|].
  exact (proj1 (invalidate_removes_reads_of_same_table fingerprint plugin
                  (createUser "User 2") (BuildQuerySQL findUsers) m1
                  testUsers testUsers
                  eq_refl eq_refl eq_refl eq_refl eq_refl eq_refl)).
Defined.

(** A raw statement without a schema empties the plugin's part of the
    store. *)
Lemma invalidate_without_schema_removes_all_witness :
  let m1 := (find ["User 1"] 1000 1001 findUsers NewMemoryAdapter).2 in
  let key := generateCacheKey fingerprint (config plugin)
                              (BuildQuerySQL findUsers) in
  let exec := {| Error := None; RowsAffected := 1;
                 Statement :=
                   {| Context := Some context_Background; Settings := ∅;
                      Schema := None;
                      SQL := "UPDATE test_users SET name = 'x'"; Vars := [];
                      Dest := None |} |} in
  is_Some (store m1 !! key)
  /\ store (invalidateCallback plugin exec m1).2 !! key = None.
Proof.
  intros m1 key exec. split; [vm_compute; eauto|].
  exact (proj1 (proj2 (invalidate_without_schema_removes_all fingerprint
                         plugin exec (BuildQuerySQL findUsers) m1
                         eq_refl eq_refl))
               eq_refl).
Defined.

(** An insert into another table leaves the cached read of [test_users]
    in the store. *)
Lemma invalidate_keeps_reads_of_other_tables_witness :
  let m1 := (find ["User 1"] 1000 1001 findUsers NewMemoryAdapter).2 in
  let key := generateCacheKey fingerprint (config plugin)
                              (BuildQuerySQL findUsers) in
  let orders := {| ModelType := TyNamed "main.Order"; Table := "orders" |} in
  let createOrder := {| Error := None; RowsAffected := 1;
                        Statement :=
                          {| Context := Some context_Background;
                             Settings := ∅; Schema := Some orders;
                             SQL := ""; Vars := []; Dest := None |} |} in
  is_Some (store m1 !! key)
  /\ store (invalidateCallback plugin createOrder m1).2 !! key
     = store m1 !! key.
Proof.
  intros m1 key orders createOrder. split; [vm_compute; eauto|].
  apply (invalidate_keeps_reads_of_other_tables fingerprint plugin
           createOrder (BuildQuerySQL findUsers) m1 orders);
    try reflexivity.
  discriminate.
Defined.

(** With a generator whose keys do not start with the table name, the
    insert does not remove the cached read. *)
Lemma invalidate_with_custom_keys_witness :
  let custom :=
    {| config :=
         {| TTL := 5 * Minute; CacheModels := [];
            InvalidateOnUpdate := true; InvalidateOnCreate := true;
            InvalidateOnDelete := true; KeyPrefix := "gorm:cache:";
            SkipCacheCondition := None;
            CacheKeyGenerator := Some (fun db => "q:" ++ SQL (Statement db));
            Serializer_ := lineSerializer |} |} in
  let key := generateCacheKey fingerprint (config custom)
                              (BuildQuerySQL findUsers) in
  let m1 := (MemoryAdapter_Set NewMemoryAdapter 1000 key
               (String.list_byte_of_string (lines ["User 1"]))
               (5 * Minute)).2 in
  is_Some (store m1 !! key)
  /\ store (invalidateCallback custom (createUser "User 2") m1).2 !! key
     = store m1 !! key.
Proof.
  intros custom key m1. split; [vm_compute; eauto|].
  exact (invalidate_with_custom_keys fingerprint custom
           (createUser "User 2") (BuildQuerySQL findUsers) m1 testUsers
           (fun db => "q:" ++ SQL (Statement db))
           eq_refl eq_refl).
Defined.

(** A read answered from the cache is the same for an empty table and
    for a table of one other row. *)
Lemma cache_hit_ignores_source_witness :
  let m1 := (find ["User 1"; "User 2"] 1000 1001 findUsers
                  NewMemoryAdapter).2 in
  find [] 2000 2001 findUsers m1 = find ["User 3"] 2000 2001 findUsers m1.
Proof.
  intros m1.
  apply (cache_hit_ignores_source (A := MemoryAdapter)
           BuildQuerySQL fingerprint Database runQuery plugin 2000 2001
           findUsers m1
           (String.list_byte_of_string (lines ["User 1"; "User 2"]))
           (Some (VPtr (TySlice (TyNamed "main.TestUser"))
                       (Some (rows ["User 1"; "User 2"]))))
           m1).
  - reflexivity.
  - reflexivity.
  - reflexivity.
  - vm_compute. congruence.
  - vm_compute. reflexivity.
  - vm_compute. congruence.
  - vm_compute. reflexivity.
Defined.

(** The first read of a table of two rows stores its result; five minutes
    later [Get] still returns it. *)
Lemma miss_writes_result_through_witness :
  let key := generateCacheKey fingerprint (config plugin)
                              (BuildQuerySQL findUsers) in
  (MemoryAdapter_Get
     (find ["User 1"; "User 2"] 1000 1001 findUsers NewMemoryAdapter).2
     (1001 + 5 * Minute) key).1
  = (String.list_byte_of_string (lines ["User 1"; "User 2"]), None).
Proof.
  intros key.
  refine (proj2 (miss_writes_result_through BuildQuerySQL fingerprint
                   Database runQuery plugin ["User 1"; "User 2"] 1000 1001
                   findUsers NewMemoryAdapter
                   (String.list_byte_of_string (lines ["User 1"; "User 2"]))
                   _ _ _ _ _ _ _ _ _ _ _ _)
                (1001 + 5 * Minute) _ _);
    try reflexivity; vm_compute; congruence.
Defined.

(** A read with [SkipCacheContext] on a filled cache. *)
Lemma bypassed_read_never_reaches_adapter_witness :
  let m1 := (find ["User 1"] 1000 1001 findUsers NewMemoryAdapter).2 in
  let skipping :=
    {| Error := None; RowsAffected := 0;
       Statement :=
         {| Context := Some (SkipCacheContext context_Background);
            Settings := ∅; Schema := Some testUsers; SQL := ""; Vars := [];
            Dest := Dest (Statement findUsers) |} |} in
  (find ["User 1"; "User 2"] 2000 2001 skipping m1).2 = m1
  /\ RowsAffected (find ["User 1"; "User 2"] 2000 2001 skipping m1).1 = 2.
Proof.
  intros m1 skipping.
  destruct (bypassed_read_never_reaches_adapter (A := MemoryAdapter)
              BuildQuerySQL fingerprint Database runQuery plugin
              ["User 1"; "User 2"] 2000 2001 skipping m1 eq_refl eq_refl)
    as (Hsame & _ & Hdb).
  split; [exact Hsame|].
  unfold find. rewrite Hdb; [reflexivity|]. intros rows. discriminate.
Defined.

End HostRunsMore.

(** ** Writes that meet, patterns that overlap, keys that collide *)

Section StoreAlgebra.

Implicit Types (m : MemoryAdapter) (k key : string).
Implicit Types (now : Time) (v : bytes) (t ttl : Duration).

Variable fingerprint : string -> list any -> string.

(** X21. [Set] never fails, and the last [Set] of a key wins: a [Set]
    after another [Set] of the same key leaves the adapter the second one
    alone would leave.  Two [Set]s of different keys can be swapped, and a
    [Delete] undoes a [Set] of its key. *)
Theorem Set_last_write_wins m k v1 v2 t1 t2 now1 now2 :
  (MemoryAdapter_Set m now1 k v1 t1).1 = None
  /\ (MemoryAdapter_Set (MemoryAdapter_Set m now1 k v1 t1).2 now2 k v2 t2).2
     = (MemoryAdapter_Set m now2 k v2 t2).2
  /\ (forall k',
        k <> k' ->
        (MemoryAdapter_Set (MemoryAdapter_Set m now1 k v1 t1).2
                           now2 k' v2 t2).2
        = (MemoryAdapter_Set (MemoryAdapter_Set m now2 k' v2 t2).2
                             now1 k v1 t1).2)
  /\ (MemoryAdapter_Delete (MemoryAdapter_Set m now1 k v1 t1).2 k).2
     = (MemoryAdapter_Delete m k).2.
Proof.
  split; [reflexivity|]. split; [|split].
  - apply MemoryAdapter_ext; try reflexivity. intros k0. simpl.
    now rewrite insert_insert_eq.
  - intros k' Hne. apply MemoryAdapter_ext; try reflexivity. intros k0.
    simpl. now rewrite insert_insert_ne by congruence.
  - apply MemoryAdapter_ext; try reflexivity. intros k0. simpl.
    now rewrite delete_insert_eq.
Qed.

Lemma HasPrefix_trans (s q p : string) :
  HasPrefix s q = true -> HasPrefix q p = true -> HasPrefix s p = true.
Proof.
  rewrite !HasPrefix_spec. intros [r1 ->] [r2 ->].
  exists (r2 ++ r1). apply append_assoc.
Qed.

(** X22. A pattern absorbs every pattern that extends it: when the text
    of [q] starts with the text of [p], applying [q*] and [p*] to the
    store, in either order, leaves what [p*] alone leaves. *)
Theorem DeletePattern_absorbs_longer_prefix m (p q : string) :
  HasPrefix q p = true ->
  (MemoryAdapter_DeletePattern (MemoryAdapter_DeletePattern m (q ++ "*")).2
                               (p ++ "*")).2
  = (MemoryAdapter_DeletePattern m (p ++ "*")).2
  /\ (MemoryAdapter_DeletePattern (MemoryAdapter_DeletePattern m (p ++ "*")).2
                                  (q ++ "*")).2
     = (MemoryAdapter_DeletePattern m (p ++ "*")).2.
Proof.
  intros Hqp.
  assert (forall k0, HasPrefix k0 q = true -> HasPrefix k0 p = true) as Hsub.
  { intros k0 Hk. now apply HasPrefix_trans with q. }
  split; apply MemoryAdapter_ext; try reflexivity; intros k0;
    rewrite !DeletePattern_star_lookup;
    destruct (HasPrefix k0 p) eqn:Hp; try reflexivity;
    destruct (HasPrefix k0 q) eqn:Hq; try reflexivity;
    rewrite (Hsub k0 Hq) in Hp; discriminate.
Qed.

Lemma DeletePattern_absorbs_longer_prefix_witness :
  let m1 := (MemoryAdapter_Set NewMemoryAdapter 1000 "gorm:cache:users:1"
               (String.list_byte_of_string "value1") Minute).2 in
  let m2 := (MemoryAdapter_Set m1 1000 "gorm:cache:orders:1"
               (String.list_byte_of_string "value3") Minute).2 in
  (MemoryAdapter_DeletePattern
     (MemoryAdapter_DeletePattern m2 "gorm:cache:users:*").2
     "gorm:cache:*").2
  = (MemoryAdapter_DeletePattern m2 "gorm:cache:*").2.
Proof.
  intros m1 m2.
  exact (proj1 (DeletePattern_absorbs_longer_prefix m2 "gorm:cache:"
                  "gorm:cache:users:" eq_refl)).
Defined.

(** X23. With the built-in generator and table names without a colon, two
    calls get the same key exactly when they read the same table (or both
    have no schema) and their statements have the same fingerprint. *)
Theorem generateCacheKey_collides_only_on_table_and_fingerprint
    (c : Config) (db1 db2 : gorm_DB) :
  let tableName (db : gorm_DB) :=
    match Schema (Statement db) with
    | Some sch => Table sch
    | None => "unknown"
    end in
  let hash (db : gorm_DB) :=
    fingerprint (SQL (Statement db)) (Vars (Statement db)) in
  CacheKeyGenerator c = None ->
  occurs ":" (tableName db1) = false ->
  occurs ":" (tableName db2) = false ->
  (generateCacheKey fingerprint c db1 = generateCacheKey fingerprint c db2
   <-> tableName db1 = tableName db2 /\ hash db1 = hash db2).
Proof.
  intros tableName hash Hgen Hc1 Hc2.
  assert (forall db, generateCacheKey fingerprint c db
                     = KeyPrefix c ++ tableName db ++ ":" ++ hash db) as Hkey.
  { intros db. unfold generateCacheKey. now rewrite Hgen. }
  rewrite !Hkey. split.
  - intros Heq. apply append_inj_l in Heq.
    assert (tableName db1 = tableName db2) as Ht
        by exact (occurs_split_unique ":"%char _ _ _ _ Hc1 Hc2 Heq).
    split; [exact Ht|]. rewrite Ht in Heq.
    apply append_inj_l in Heq. now injection Heq.
  - intros [-> ->]. reflexivity.
Qed.

End StoreAlgebra.

Lemma generateCacheKey_collides_only_on_table_and_fingerprint_witness :
  generateCacheKey Host.fingerprint (config Host.plugin)
                   (Host.BuildQuerySQL Host.findUsers)
  = generateCacheKey Host.fingerprint (config Host.plugin)
                     (Host.BuildQuerySQL (Host.createUser "User 1")).
Proof.
  apply (generateCacheKey_collides_only_on_table_and_fingerprint
           Host.fingerprint (config Host.plugin)
           (Host.BuildQuerySQL Host.findUsers)
           (Host.BuildQuerySQL (Host.createUser "User 1"))
           eq_refl eq_refl eq_refl).
  split; reflexivity.
Defined.


(** ** Reads that fall through to the source *)

Section FallThrough.

Context {A : Type} `{Adapter A}.
Variable BuildQuerySQL : gorm_DB -> gorm_DB.
Variable fingerprint : string -> list any -> string.
Variable Database : Type.
Variable runQuery : Database -> gorm_DB -> gorm_DB.

Implicit Types (p : CachePlugin) (db : gorm_DB) (a : A) (now : Time).
Implicit Types (src : Database) (m : MemoryAdapter).

(** X24. A read does not repair a cached payload that cannot be decoded,
    unless the call already carries a remembered key: when [Get] returns a
    payload and [Unmarshal] fails on it, the before-query step remembers
    no key (the settings of the call stay as they were) and sets no
    failure, so the source is run; and when the call carries no
    [gorm:cache:key] and no marker after the source ran, as for a
    statement that did not go through an earlier miss, the query chain
    returns what the source returned and leaves the in-memory adapter as
    it was, the payload still stored. *)
Theorem undecodable_entry_falls_through p src now1 now2 db m data dest e :
  let db1 := if (String.length (SQL (Statement db)) =? 0)%nat
             then BuildQuerySQL db else db in
  let key := generateCacheKey fingerprint (config p) db1 in
  let db2 := runQuery src (set_Dest db1 dest) in
  Error db = None ->
  shouldSkipCache (config p) db = false ->
  shouldCacheModel (config p) db = true ->
  SQL (Statement db1) <> "" ->
  Error db1 = None ->
  (MemoryAdapter_Get m now1 key).1 = (data, None) ->
  Dest (Statement db1) <> None ->
  Unmarshal (Serializer_ (config p)) data (Dest (Statement db1))
  = (dest, Some e) ->
  queryCallback BuildQuerySQL fingerprint p now1 db m = (set_Dest db1 dest, m)
  /\ Settings (Statement (set_Dest db1 dest)) = Settings (Statement db1)
  /\ (Settings (Statement db2) !! "gorm:cache:key" = None ->
      (forall rows, Error db2 <> Some (ErrCacheHit rows)) ->
      Find BuildQuerySQL fingerprint Database runQuery p src now1 now2 db m
      = (db2, m)).
Proof.
  intros db1 key db2 Herr Hskip Hmodel Hsql Herr1 Hget Hdest Hunm.
  assert (queryCallback BuildQuerySQL fingerprint p now1 db m
          = (set_Dest db1 dest, m)) as Hq.
  { unfold queryCallback. rewrite Herr, Hskip, Hmodel. cbn [negb].
    fold db1. apply String.eqb_neq in Hsql. rewrite Hsql. fold key.
    cbn [Adapter_Get MemoryAdapter_Adapter].
    pose proof (Get_state m now1 key) as Hst.
    destruct (MemoryAdapter_Get m now1 key) as [[d e0] m0].
    simpl in Hget, Hst. subst m0. injection Hget as -> ->.
    destruct (Dest (Statement db1)) as [d0|] eqn:Hd; [|congruence].
    now rewrite Hunm. }
  split; [exact Hq|]. split; [reflexivity|].
  intros Hkey Hmark. unfold Find. rewrite Hq. unfold gorm_Query.
  change (Error (set_Dest db1 dest)) with (Error db1). rewrite Herr1.
  fold db2. unfold afterQueryCallback.
  destruct (Error db2) as [[rows|msg]|] eqn:Herr2.
  - now destruct (Hmark rows).
  - reflexivity.
  - destruct (shouldSkipCache (config p) db2); [reflexivity|].
    destruct (negb (shouldCacheModel (config p) db2)); [reflexivity|].
    unfold any in *. now rewrite Hkey.
Qed.

(** X25. A read that fails at the source is not cached: when the call
    carries a failure other than the plugin's marker after the source
    step, the query chain returns that call with its failure, and the
    adapter as the before-query step left it, without a [Set]. *)
Theorem failed_read_is_not_cached p src now1 now2 db a msg :
  let q := queryCallback BuildQuerySQL fingerprint p now1 db a in
  Error (gorm_Query Database runQuery src q.1) = Some (errorString msg) ->
  Find BuildQuerySQL fingerprint Database runQuery p src now1 now2 db a
  = (gorm_Query Database runQuery src q.1, q.2)
  /\ (forall r : Recorder A,
        let qr := queryCallback BuildQuerySQL fingerprint p now1 db r in
        Error (gorm_Query Database runQuery src qr.1)
        = Some (errorString msg) ->
        calls (Find BuildQuerySQL fingerprint Database runQuery p src
                    now1 now2 db r).2
        = calls qr.2).
Proof.
  intros q Hfail.
  assert (forall {B : Type} `{Adapter B} (b : B),
             let qb := queryCallback BuildQuerySQL fingerprint p now1 db b in
             Error (gorm_Query Database runQuery src qb.1)
             = Some (errorString msg) ->
             Find BuildQuerySQL fingerprint Database runQuery p src
                  now1 now2 db b
             = (gorm_Query Database runQuery src qb.1, qb.2)) as Hgen.
  { intros B HB b qb Hf. subst qb. unfold Find.
    destruct (queryCallback BuildQuerySQL fingerprint p now1 db b)
      as [db1 b1].
    cbn [fst snd] in *. unfold afterQueryCallback. now rewrite Hf. }
  split; [now apply Hgen|].
  intros r qr Hf. now rewrite (Hgen _ _ r Hf).
Qed.

End FallThrough.

Section FallThroughRuns.

Import Host.

(** [db.First(&user)] on a cache that holds the rows of [db.Find(&users)]
    under the same key: the serializer cannot decode into a struct. *)
Lemma undecodable_entry_falls_through_witness :
  let m1 := (find ["User 1"; "User 2"] 1000 1001 findUsers
                  NewMemoryAdapter).2 in
  let first :=
    {| Error := None; RowsAffected := 0;
       Statement :=
         {| Context := Some context_Background; Settings := ∅;
            Schema := Some testUsers; SQL := ""; Vars := [];
            Dest := Some (VPtr (TyNamed "main.TestUser")
                               (Some (row ""))) |} |} in
  (find ["User 1"; "User 2"] 2000 2001 first m1).2 = m1.
Proof.
  intros m1 first.
  pose proof (undecodable_entry_falls_through BuildQuerySQL fingerprint
                Database runQuery plugin ["User 1"; "User 2"] 2000 2001
                first m1
                (String.list_byte_of_string (lines ["User 1"; "User 2"]))
                (Dest (Statement first))
                (errors_New "unsupported destination")) as Hfall.
  cbv zeta in Hfall. unfold find.
  destruct (Hfall eq_refl eq_refl eq_refl
              ltac:(vm_compute; congruence) eq_refl
              ltac:(vm_compute; reflexivity)
              ltac:(vm_compute; congruence)
              ltac:(vm_compute; reflexivity)) as (_ & _ & Hfind).
  rewrite Hfind; [reflexivity | vm_compute; reflexivity |].
  intros rows. vm_compute. congruence.
Defined.

(** A read of a table that does not exist. *)
Lemma failed_read_is_not_cached_witness :
  let failing (src : Database) (db : gorm_DB) :=
    set_Error db (Some (errors_New "no such table: test_users")) in
  (Find (A := MemoryAdapter) BuildQuerySQL fingerprint Database failing
        plugin [] 1000 1001 findUsers NewMemoryAdapter).2
  = NewMemoryAdapter.
Proof.
  intros failing.
  rewrite (proj1 (@failed_read_is_not_cached MemoryAdapter
                    MemoryAdapter_Adapter BuildQuerySQL fingerprint Database failing plugin []
                    1000 1001 findUsers NewMemoryAdapter
                    "no such table: test_users"
                    ltac:(vm_compute; reflexivity))).
  vm_compute. reflexivity.
Defined.

End FallThroughRuns.
